(** * Keyboard Informer: the preferences state-synchronisation core

    A shallow embedding of [prefs.js]: the settings cache kept by
    [SettingsManager], the reset/save logic of [SimpleManager], the
    signal-blocking discipline of [EntryManager] and the handlers wired by
    [GroupBuilder], followed by the properties that relate the cache, the
    saved preset and the widgets.

    JavaScript objects used as dictionaries are finite maps from property
    name to value; a property may exist and hold [undefined], which is
    different from the property being absent for [Object.keys] and the
    same for a read. *)

From Stdlib Require Import Ascii String List Bool Arith Lia.
From stdpp Require Import base option list gmap strings fin_maps.

Local Open Scope string_scope.

(** ** JavaScript values *)

(** The values that flow through the preferences code. *)
Inductive JsVal : Type :=
| JUndefined
| JNull
| JBool (b : bool)
| JString (s : string).

#[global] Instance JsVal_eq_dec : EqDecision JsVal.
Proof. solve_decision. Defined.

Module Js.

(** [a === b] on the values above. *)
Definition strict_eq (a b : JsVal) : bool :=
  match a, b with
  | JUndefined, JUndefined => true
  | JNull, JNull => true
  | JBool x, JBool y => Bool.eqb x y
  | JString x, JString y => String.eqb x y
  | _, _ => false
  end.

(** [a !== b]. *)
Definition strict_ne (a b : JsVal) : bool := negb (strict_eq a b).

(** [a ?? d]: [d] replaces [undefined] and [null] only. *)
Definition nullish (a d : JsVal) : JsVal :=
  match a with
  | JUndefined | JNull => d
  | _ => a
  end.

(** [a || d] for the operands the code uses it with: [d] replaces every
    falsy value ([undefined], [null], [false] and the empty string). *)
Definition or_else (a d : JsVal) : JsVal :=
  match a with
  | JUndefined | JNull | JBool false | JString EmptyString => d
  | _ => a
  end.

(** [obj[key]]: reading a missing property gives [undefined]. *)
Definition get (obj : gmap string JsVal) (key : string) : JsVal :=
  default JUndefined (obj !! key).

(** [obj[key] = v]: creates or overwrites the property. *)
Definition set (obj : gmap string JsVal) (key : string) (v : JsVal)
  : gmap string JsVal :=
  <[key := v]> obj.

(** [Object.keys(obj)]; only membership and the number of keys are used. *)
Definition keys (obj : gmap string JsVal) : list string :=
  (map_to_list obj).*1.

(** [arr[i]]: reading past the end gives [undefined]. *)
Definition index (arr : list JsVal) (i : nat) : JsVal :=
  default JUndefined (arr !! i).

(** [arr.every((x, i) => p(x, i))], with the running index starting at
    [i]. *)
Fixpoint every_from {A : Type} (p : A -> nat -> bool) (i : nat) (l : list A)
  : bool :=
  match l with
  | [] => true
  | x :: l' => p x i && every_from p (S i) l'
  end.

Definition every {A : Type} (p : A -> nat -> bool) (l : list A) : bool :=
  every_from p 0 l.

(** [arr.some(x => p(x))]. *)
Fixpoint some {A : Type} (p : A -> bool) (l : list A) : bool :=
  match l with
  | [] => false
  | x :: l' => p x || some p l'
  end.

(** [arr.forEach((x, i) => body(x, i))] over a threaded state, with the
    running index starting at [i]. *)
Fixpoint forEach_from {A St : Type} (body : A -> nat -> St -> St) (i : nat)
  (l : list A) (s : St) : St :=
  match l with
  | [] => s
  | x :: l' => forEach_from body (S i) l' (body x i s)
  end.

Definition forEach {A St : Type} (body : A -> nat -> St -> St) (l : list A)
  (s : St) : St :=
  forEach_from body 0 l s.

End Js.

(** ** Constants of the module *)

Definition MODIFIERS : list string :=
  ["shift"; "caps"; "control"; "alt"; "num"; "scroll"; "super"; "altgr"].

Record ModifierKeys : Type := {
  symbol : string;
  icon : string;
  useIcon : string
}.

Definition modifierKeys (name : string) : ModifierKeys :=
  {| symbol := name ++ "-symbol";
     icon := name ++ "-icon-path";
     useIcon := name ++ "-use-icon" |}.

(** The single entry of [SYMBOL_PRESETS.modifiers], under the name
    'Symbols'. *)
Definition SYMBOL_PRESETS_Symbols : list JsVal :=
  [JString "⇧"; JString "Caps"; JString "⌃"; JString "⎇";
   JString "Num"; JString "⇳"; JString "❖"; JString "⎈"].

(** ** The settings store of the host

    [this._settings] is a GSettings object supplied by the shell.  The
    source only calls it; the model keeps what those calls exchange: the
    keys the schema declares, the string-typed keys, the boolean-typed
    keys and the [saved-symbols] dictionary.  A typed getter always returns a value of its type.  What
    the host does with a write whose value is not of the key's type is not
    in the source: [set_string] and [set_boolean] leave the store as it
    was.  The store of the specification raises an error on such a write;
    it is [set_string_strict] further down, which agrees with
    [set_string] on every write that is well typed. *)

Record GSettings : Type := {
  gs_schema : gset string;
  gs_strings : gmap string string;
  gs_booleans : gmap string bool;
  gs_saved_symbols : gmap string JsVal
}.

Definition get_string (gs : GSettings) (key : string) : JsVal :=
  JString (default "" (gs_strings gs !! key)).

Definition get_boolean (gs : GSettings) (key : string) : JsVal :=
  JBool (default false (gs_booleans gs !! key)).

Definition set_string (gs : GSettings) (key : string) (value : JsVal)
  : GSettings :=
  match value with
  | JString s =>
      {| gs_schema := gs_schema gs;
         gs_strings := <[key := s]> (gs_strings gs);
         gs_booleans := gs_booleans gs;
         gs_saved_symbols := gs_saved_symbols gs |}
  | _ => gs
  end.

Definition set_boolean (gs : GSettings) (key : string) (value : JsVal)
  : GSettings :=
  match value with
  | JBool b =>
      {| gs_schema := gs_schema gs;
         gs_strings := gs_strings gs;
         gs_booleans := <[key := b]> (gs_booleans gs);
         gs_saved_symbols := gs_saved_symbols gs |}
  | _ => gs
  end.

(** [get_value('saved-symbols').deep_unpack()]. *)
Definition get_saved_symbols (gs : GSettings) : gmap string JsVal :=
  gs_saved_symbols gs.

(** [set_value('saved-symbols', new GLib.Variant('a{ss}', symbols))]: the
    store keeps the dictionary it is handed.  What the packing does with a
    value that is not a string is not in the source. *)
Definition set_saved_symbols (gs : GSettings) (symbols : gmap string JsVal)
  : GSettings :=
  {| gs_schema := gs_schema gs;
     gs_strings := gs_strings gs;
     gs_booleans := gs_booleans gs;
     gs_saved_symbols := symbols |}.

(** [this._schema.get_key(key)] is only tested for being there. *)
Definition has_schema_key (gs : GSettings) (key : string) : bool :=
  bool_decide (key ∈ gs_schema gs).

(** ** Widgets, the main loop and the console *)

(** A [Gtk.Entry] with the single 'changed' handler [addEntry] connects to
    it: its text, and how many times that handler is currently blocked
    ([block_signal_handler] adds one, [unblock_signal_handler] removes
    one; the handler runs on an emission only when the count is zero). *)
Record Entry : Type := {
  text : JsVal;
  block_count : nat
}.

(** The lines the code writes with [console.debug] and [console.warn], in
    order. *)
Inductive LogLine : Type :=
| LogCurrentSymbols (current : gmap string JsVal)
| LogSavedSymbols (saved : gmap string JsVal)
| LogApplyingDefaults (defaults : list JsVal)
| LogSavingCurrent (saved : gmap string JsVal)
| LogEntryChanged (key : string) (newValue : JsVal)
| LogAddedEntry (key : string) (txt : JsVal)
| LogUpdatingEntry (key : string) (old new : JsVal)
| LogCreatingGroup
| LogGroupCreated
| LogInitializing
| LogInitialized
| WarnSchemaMissing (name : string)
| LogResetClicked
| LogSaveClicked
| LogSavedChangedExternally
| LogButtonStates (resetEnabled saveVisible : bool).

(** Everything the preferences window owns: the [SettingsManager] fields
    ([settings], [currentSymbols], [currentUseIcon], [savedSymbols]), the
    [EntryManager] map from key to entry widget, the idle callbacks queued
    with [GLib.idle_add] (each one unblocks the handler of the entry stored
    under the recorded key), the two header buttons and the console.  The
    file button, the stack and the switch of a row are written by the
    handlers and read by none of them; they are left out, and with them
    the 'state-set' emission a [set_active] on the switch may cause. *)
Record State : Type := {
  settings : GSettings;
  currentSymbols : gmap string JsVal;
  currentUseIcon : gmap string JsVal;
  savedSymbols : gmap string JsVal;
  entries : gmap string Entry;
  idle : list string;
  resetButton_sensitive : bool;
  saveButton_visible : bool;
  console : list LogLine
}.

Definition with_settings (x : GSettings) (st : State) : State :=
  {| settings := x; currentSymbols := currentSymbols st;
     currentUseIcon := currentUseIcon st; savedSymbols := savedSymbols st;
     entries := entries st; idle := idle st;
     resetButton_sensitive := resetButton_sensitive st;
     saveButton_visible := saveButton_visible st; console := console st |}.

Definition with_currentSymbols (x : gmap string JsVal) (st : State) : State :=
  {| settings := settings st; currentSymbols := x;
     currentUseIcon := currentUseIcon st; savedSymbols := savedSymbols st;
     entries := entries st; idle := idle st;
     resetButton_sensitive := resetButton_sensitive st;
     saveButton_visible := saveButton_visible st; console := console st |}.

Definition with_currentUseIcon (x : gmap string JsVal) (st : State) : State :=
  {| settings := settings st; currentSymbols := currentSymbols st;
     currentUseIcon := x; savedSymbols := savedSymbols st;
     entries := entries st; idle := idle st;
     resetButton_sensitive := resetButton_sensitive st;
     saveButton_visible := saveButton_visible st; console := console st |}.

Definition with_savedSymbols (x : gmap string JsVal) (st : State) : State :=
  {| settings := settings st; currentSymbols := currentSymbols st;
     currentUseIcon := currentUseIcon st; savedSymbols := x;
     entries := entries st; idle := idle st;
     resetButton_sensitive := resetButton_sensitive st;
     saveButton_visible := saveButton_visible st; console := console st |}.

Definition with_entries (x : gmap string Entry) (st : State) : State :=
  {| settings := settings st; currentSymbols := currentSymbols st;
     currentUseIcon := currentUseIcon st; savedSymbols := savedSymbols st;
     entries := x; idle := idle st;
     resetButton_sensitive := resetButton_sensitive st;
     saveButton_visible := saveButton_visible st; console := console st |}.

Definition with_idle (x : list string) (st : State) : State :=
  {| settings := settings st; currentSymbols := currentSymbols st;
     currentUseIcon := currentUseIcon st; savedSymbols := savedSymbols st;
     entries := entries st; idle := x;
     resetButton_sensitive := resetButton_sensitive st;
     saveButton_visible := saveButton_visible st; console := console st |}.

Definition with_buttons (reset save : bool) (st : State) : State :=
  {| settings := settings st; currentSymbols := currentSymbols st;
     currentUseIcon := currentUseIcon st; savedSymbols := savedSymbols st;
     entries := entries st; idle := idle st;
     resetButton_sensitive := reset;
     saveButton_visible := save; console := console st |}.

(** [console.debug(line)]. *)
Definition debug (line : LogLine) (st : State) : State :=
  {| settings := settings st; currentSymbols := currentSymbols st;
     currentUseIcon := currentUseIcon st; savedSymbols := savedSymbols st;
     entries := entries st; idle := idle st;
     resetButton_sensitive := resetButton_sensitive st;
     saveButton_visible := saveButton_visible st;
     console := (console st ++ [line])%list |}.

(** ** SettingsManager *)

(** The fields as the constructor leaves them, around the store
    [initialize] obtains from the extension. *)
Definition new_SettingsManager (gs : GSettings) : State :=
  {| settings := gs; currentSymbols := ∅; currentUseIcon := ∅;
     savedSymbols := ∅; entries := ∅; idle := [];
     resetButton_sensitive := true; saveButton_visible := true;
     console := [] |}.

Definition _loadCurrentState (st : State) : State :=
  let st := with_currentSymbols ∅ st in
  let st := with_currentUseIcon ∅ st in
  let st :=
    Js.forEach (fun name _ st =>
      let keys := modifierKeys name in
      let st := with_currentSymbols
        (Js.set (currentSymbols st) (symbol keys)
           (get_string (settings st) (symbol keys))) st in
      let st := with_currentSymbols
        (Js.set (currentSymbols st) (icon keys)
           (get_string (settings st) (icon keys))) st in
      with_currentUseIcon
        (Js.set (currentUseIcon st) (useIcon keys)
           (get_boolean (settings st) (useIcon keys))) st)
      MODIFIERS st in
  let st := with_savedSymbols (get_saved_symbols (settings st)) st in
  let st := debug (LogCurrentSymbols (currentSymbols st)) st in
  debug (LogSavedSymbols (savedSymbols st)) st.

Definition initialize (st : State) : State := _loadCurrentState st.

Definition getSchemaKey (st : State) (key : string) : bool :=
  has_schema_key (settings st) key.

Definition setString (key : string) (value : JsVal) (st : State) : State :=
  let st := with_settings (set_string (settings st) key value) st in
  with_currentSymbols (Js.set (currentSymbols st) key value) st.

Definition setBoolean (key : string) (value : JsVal) (st : State) : State :=
  let st := with_settings (set_boolean (settings st) key value) st in
  with_currentUseIcon (Js.set (currentUseIcon st) key value) st.

(** [{ ...symbols }] copies every own property, so the copy is the same
    dictionary. *)
Definition setSavedSymbols (symbols : gmap string JsVal) (st : State)
  : State :=
  let st := with_savedSymbols symbols st in
  with_settings (set_saved_symbols (settings st) (savedSymbols st)) st.

Definition symbolsEqual (obj1 obj2 : gmap string JsVal) : bool :=
  let keys1 := Js.keys obj1 in
  let keys2 := Js.keys obj2 in
  if negb (Nat.eqb (length keys1) (length keys2)) then false
  else
    Js.every (fun key _ =>
      Js.strict_eq (Js.nullish (Js.get obj1 key) (JString ""))
                   (Js.nullish (Js.get obj2 key) (JString ""))) keys1.

Definition currentDiffersFromSaved (keys : list string) (st : State) : bool :=
  Js.some (fun key =>
    Js.strict_ne (Js.get (currentSymbols st) key)
                 (Js.nullish (Js.get (savedSymbols st) key) (JString "")))
    keys.

(** ** EntryManager *)

Section Toolkit.

(** The [changeCallback] the entries are added with: [EntryManager] is
    written for any callback, and so is its model. *)
Variable changeCallback : string -> JsVal -> State -> State.

(** The handler connected in [addEntry] for the entry stored under [key]. *)
Definition on_entry_changed (key : string) (st : State) : State :=
  match entries st !! key with
  | None => st
  | Some e =>
      let newValue := text e in
      let st := debug (LogEntryChanged key newValue) st in
      changeCallback key newValue st
  end.

(** [entry.text = value] on the entry stored under [key]: the toolkit
    stores the text and emits 'changed' before the assignment returns; the
    connected handler runs unless it is blocked. *)
Definition entry_set_text (key : string) (value : JsVal) (st : State)
  : State :=
  match entries st !! key with
  | None => st
  | Some e =>
      let st := with_entries
        (<[key := {| text := value; block_count := block_count e |}]>
           (entries st)) st in
      if Nat.eqb (block_count e) 0 then on_entry_changed key st else st
  end.

(** [entry.block_signal_handler(changeId)]. *)
Definition block_signal_handler (key : string) (st : State) : State :=
  match entries st !! key with
  | None => st
  | Some e =>
      with_entries
        (<[key := {| text := text e; block_count := S (block_count e) |}]>
           (entries st)) st
  end.

(** [entry.unblock_signal_handler(changeId)]. *)
Definition unblock_signal_handler (key : string) (st : State) : State :=
  match entries st !! key with
  | None => st
  | Some e =>
      with_entries
        (<[key := {| text := text e; block_count := pred (block_count e) |}]>
           (entries st)) st
  end.

(** [GLib.idle_add(null, () => { entry.unblock_signal_handler(changeId);
    return GLib.SOURCE_REMOVE; })]: queued behind the callbacks already
    waiting; it runs once, from the main loop, after the running handler
    has returned. *)
Definition idle_add_unblock (key : string) (st : State) : State :=
  with_idle (idle st ++ [key])%list st.

(** The main loop runs the oldest idle callback and removes it. *)
Definition run_idle (st : State) : State :=
  match idle st with
  | [] => st
  | key :: rest => unblock_signal_handler key (with_idle rest st)
  end.

Definition addEntry (key : string) (entry : Entry) (st : State) : State :=
  let st := with_entries (<[key := entry]> (entries st)) st in
  debug (LogAddedEntry key (text entry)) st.

Definition updateEntry (key : string) (value : JsVal) (st : State) : State :=
  match entries st !! key with
  | None => st
  | Some entryData =>
      let st := block_signal_handler key st in
      let st := debug (LogUpdatingEntry key (text entryData) value) st in
      let st := entry_set_text key value st in
      idle_add_unblock key st
  end.

Definition getEntry (key : string) (st : State) : option Entry :=
  entries st !! key.

End Toolkit.

(** ** SimpleManager *)

Record SimpleManager : Type := {
  keys : list string;
  defaultValues : list JsVal
}.

Definition isCurrentEqualToDefault (this : SimpleManager) (st : State)
  : bool :=
  Js.every (fun key i =>
    Js.strict_eq (Js.get (currentSymbols st) key)
                 (Js.index (defaultValues this) i)) (keys this).

Definition isCurrentEqualToSaved (this : SimpleManager) (st : State) : bool :=
  negb (currentDiffersFromSaved (keys this) st).

(** The arrow function [applyDefaults] hands to [forEach];
    [changeCallback] is the callback the entries of [entryManager] were
    added with. *)
Definition applyDefaults_body
  (changeCallback : string -> JsVal -> State -> State)
  (this : SimpleManager) (key : string) (i : nat) (st : State) : State :=
  let value := Js.index (defaultValues this) i in
  if Js.strict_ne (Js.get (currentSymbols st) key) value then
    let st := updateEntry changeCallback key value st in
    setString key value st
  else st.

Definition applyDefaults (changeCallback : string -> JsVal -> State -> State)
  (this : SimpleManager) (st : State) : State :=
  let st := debug (LogApplyingDefaults (defaultValues this)) st in
  Js.forEach (applyDefaults_body changeCallback this) (keys this) st.

Definition saveCurrentAsPreset (this : SimpleManager) (st : State) : State :=
  let st :=
    Js.forEach (fun key _ st =>
      with_savedSymbols
        (Js.set (savedSymbols st) key (Js.get (currentSymbols st) key)) st)
      (keys this) st in
  let st := debug (LogSavingCurrent (savedSymbols st)) st in
  setSavedSymbols (savedSymbols st) st.

(** ** GroupBuilder *)

Section Group.

(** The manager [createGroup] builds; every closure of the group captures
    it together with the two buttons. *)
Variable simpleManager : SimpleManager.

Definition _updateButtonStates (st : State) : State :=
  let isDefault := isCurrentEqualToDefault simpleManager st in
  let isSaved := isCurrentEqualToSaved simpleManager st in
  let st := with_buttons (negb isDefault) (negb isSaved) st in
  debug (LogButtonStates (negb isDefault) (negb isSaved)) st.

(** The [onEntryChanged] closure handed to [_createEntryRows]. *)
Definition onEntryChanged (st : State) : State := _updateButtonStates st.

(** The callback [_createEntryRows] passes to [addEntry] for the row of
    [name]. *)
Definition symbol_changeCallback (name : string) (changedKey : string)
  (newValue : JsVal) (st : State) : State :=
  let fullKey := symbol (modifierKeys name) in
  if Js.strict_ne (Js.get (currentSymbols st) fullKey) newValue then
    let st := setString fullKey newValue st in
    onEntryChanged st
  else st.

(** The callback of the entry stored under [key]: the row of the modifier
    whose symbol key it is. *)
Definition changeCallback_of (key : string) (newValue : JsVal) (st : State)
  : State :=
  match List.find (fun name => String.eqb (symbol (modifierKeys name)) key)
          MODIFIERS with
  | Some name => symbol_changeCallback name key newValue st
  | None => st
  end.

Definition _createControlButtons (st : State) : State :=
  with_buttons true false st.

(** 'clicked' on the reset button. *)
Definition on_reset_clicked (st : State) : State :=
  let st := debug LogResetClicked st in
  let st := applyDefaults changeCallback_of simpleManager st in
  _updateButtonStates st.

(** 'clicked' on the save button. *)
Definition on_save_clicked (st : State) : State :=
  let st := debug LogSaveClicked st in
  let st := saveCurrentAsPreset simpleManager st in
  _updateButtonStates st.

(** 'changed::saved-symbols' on the store. *)
Definition on_saved_symbols_changed (st : State) : State :=
  let st := debug LogSavedChangedExternally st in
  let newSavedSymbols := get_saved_symbols (settings st) in
  if negb (symbolsEqual (savedSymbols st) newSavedSymbols) then
    let st := with_savedSymbols newSavedSymbols st in
    _updateButtonStates st
  else st.

Definition _setupButtonLogic (st : State) : State :=
  _updateButtonStates st.

(** The [onPicked] closure of the file button of [name]. *)
Definition on_file_picked (name : string) (newValue : JsVal) (st : State)
  : State :=
  let keys := modifierKeys name in
  if Js.strict_ne (Js.get (currentSymbols st) (icon keys)) newValue then
    let st := setString (icon keys) newValue st in
    onEntryChanged st
  else st.

(** 'changed::<name>-symbol' on the store. *)
Definition on_symbol_changed (name : string) (st : State) : State :=
  let keys := modifierKeys name in
  let newValue := get_string (settings st) (symbol keys) in
  if Js.strict_ne (Js.get (currentSymbols st) (symbol keys)) newValue then
    let st := with_currentSymbols
      (Js.set (currentSymbols st) (symbol keys) newValue) st in
    let st := updateEntry changeCallback_of (symbol keys) newValue st in
    onEntryChanged st
  else st.

(** 'changed::<name>-icon-path' on the store. *)
Definition on_icon_changed (name : string) (st : State) : State :=
  let keys := modifierKeys name in
  let newValue := get_string (settings st) (icon keys) in
  if Js.strict_ne (Js.get (currentSymbols st) (icon keys)) newValue then
    let st := with_currentSymbols
      (Js.set (currentSymbols st) (icon keys) newValue) st in
    onEntryChanged st
  else st.

(** 'state-set' on the switch of [name]. *)
Definition on_state_set (name : string) (isActive : bool) (st : State)
  : State :=
  let keys := modifierKeys name in
  let st := setBoolean (useIcon keys) (JBool isActive) st in
  onEntryChanged st.

(** 'changed::<name>-use-icon' on the store. *)
Definition on_useIcon_changed (name : string) (st : State) : State :=
  let keys := modifierKeys name in
  let newVal := get_boolean (settings st) (useIcon keys) in
  if Js.strict_ne (Js.get (currentUseIcon st) (useIcon keys)) newVal then
    let st := with_currentUseIcon
      (Js.set (currentUseIcon st) (useIcon keys) newVal) st in
    onEntryChanged st
  else st.

(** Whether [_createEntryRows] builds the row of [name]. *)
Definition row_has_schema (name : string) (st : State) : bool :=
  let keys := modifierKeys name in
  getSchemaKey st (symbol keys) && getSchemaKey st (icon keys)
  && getSchemaKey st (useIcon keys).

Definition _createEntryRows (st : State) : State :=
  Js.forEach (fun name _ st =>
    let keys := modifierKeys name in
    if negb (row_has_schema name st) then debug (WarnSchemaMissing name) st
    else
      let textEntry :=
        {| text := Js.or_else (Js.get (currentSymbols st) (symbol keys))
                     (JString "");
           block_count := 0 |} in
      addEntry (symbol keys) textEntry st) MODIFIERS st.

Definition createGroup (st : State) : State :=
  let st := debug LogCreatingGroup st in
  let st := _createControlButtons st in
  let st := _setupButtonLogic st in
  let st := _createEntryRows st in
  debug LogGroupCreated st.

End Group.

(** ** KeyboardInformerPreferences *)

(** The key list [_createPreferenceGroups] builds. *)
Definition group_keys : list string :=
  Js.forEach (fun name _ keys =>
    let ks := modifierKeys name in
    (keys ++ [symbol ks; icon ks; useIcon ks])%list) MODIFIERS [].

(** The manager of the one group: the key list above with the 'Symbols'
    preset as default values. *)
Definition group_manager : SimpleManager :=
  {| keys := group_keys; defaultValues := SYMBOL_PRESETS_Symbols |}.

Definition _createPreferenceGroups (st : State) : State :=
  createGroup group_manager st.

Definition fillPreferencesWindow (gs : GSettings) : State :=
  let st := debug LogInitializing (new_SettingsManager gs) in
  let st := initialize st in
  let st := _createPreferenceGroups st in
  debug LogInitialized st.

(** ** The session: what can happen to an open preferences window *)

Inductive Event : Type :=
| UserEditsEntry (name : string) (txt : string)
| FilePicked (name : string) (path : string)
| SwitchStateSet (name : string) (isActive : bool)
| ResetClicked
| SaveClicked
| ChangedSymbol (name : string)
| ChangedIcon (name : string)
| ChangedUseIcon (name : string)
| ChangedSavedSymbols
| OutsideSetString (key : string) (value : string)
| OutsideSetBoolean (key : string) (value : bool)
| OutsideSetSaved (saved : gmap string string)
| IdleRuns.

(** The handler each event runs.  A store notification is delivered as a
    turn of its own, after the write that caused it. *)
Definition handle (sm : SimpleManager) (ev : Event) (st : State) : State :=
  match ev with
  | UserEditsEntry name txt =>
      entry_set_text (changeCallback_of sm) (symbol (modifierKeys name))
        (JString txt) st
  | FilePicked name path =>
      on_file_picked sm name (Js.or_else (JString path) (JString "")) st
  | SwitchStateSet name isActive => on_state_set sm name isActive st
  | ResetClicked => on_reset_clicked sm st
  | SaveClicked => on_save_clicked sm st
  | ChangedSymbol name => on_symbol_changed sm name st
  | ChangedIcon name => on_icon_changed sm name st
  | ChangedUseIcon name => on_useIcon_changed sm name st
  | ChangedSavedSymbols => on_saved_symbols_changed sm st
  | OutsideSetString key value =>
      with_settings (set_string (settings st) key (JString value)) st
  | OutsideSetBoolean key value =>
      with_settings (set_boolean (settings st) key (JBool value)) st
  | OutsideSetSaved saved =>
      with_settings (set_saved_symbols (settings st) (JString <$> saved)) st
  | IdleRuns => run_idle st
  end.

(** Row events need the row: a modifier of [MODIFIERS] whose keys the
    schema declares. *)
Definition has_row (name : string) (st : State) : bool :=
  bool_decide (name ∈ MODIFIERS) && row_has_schema name st.

Definition enabled (ev : Event) (st : State) : bool :=
  match ev with
  | UserEditsEntry name _ | FilePicked name _ | SwitchStateSet name _
  | ChangedSymbol name | ChangedIcon name | ChangedUseIcon name =>
      has_row name st
  | _ => true
  end.

(** The states an open preferences window can be in. *)
Inductive Reachable : State -> Prop :=
| Reachable_init (gs : GSettings) : Reachable (fillPreferencesWindow gs)
| Reachable_step (st : State) (ev : Event) :
    Reachable st -> enabled ev st = true ->
    Reachable (handle group_manager ev st).

(** What the two header buttons are meant to show. *)
Definition buttons_reflect_state (sm : SimpleManager) (st : State) : Prop :=
  resetButton_sensitive st = negb (isCurrentEqualToDefault sm st) /\
  saveButton_visible st = negb (isCurrentEqualToSaved sm st).

(** ** A store to run the code on

    A store whose schema declares every key of the group and in which
    every key holds the default the schema gives it: a glyph or label for
    a symbol, no icon path, icons off, and nothing saved yet. *)

Definition sample_schema : gset string :=
  list_to_set group_keys ∪ {["saved-symbols"]}.

Definition sample_store : GSettings :=
  {| gs_schema := sample_schema;
     gs_strings :=
       list_to_map
         [("shift-symbol", "⇧"); ("caps-symbol", "Caps");
          ("control-symbol", "⌃"); ("alt-symbol", "⎇");
          ("num-symbol", "Num"); ("scroll-symbol", "⇳");
          ("super-symbol", "❖"); ("altgr-symbol", "⎈")];
     gs_booleans := ∅;
     gs_saved_symbols := ∅ |}.

Definition sample_window : State := fillPreferencesWindow sample_store.

(** A manager over the single key [shift-symbol], as the managers were
    meant to be used, and a window whose saved preset holds the default
    glyph for it. *)
Definition shift_manager : SimpleManager :=
  {| keys := ["shift-symbol"]; defaultValues := [JString "⇧"] |}.

Definition shift_window : State :=
  with_savedSymbols {["shift-symbol" := JString "⇧"]} sample_window.

(** ** The rest of SettingsManager *)

(** [Object.fromEntries(entries)]: the entries are written in order, so a
    later entry for a key replaces an earlier one. *)
Definition Object_fromEntries (entries : list (string * JsVal))
  : gmap string JsVal :=
  fold_left (fun obj kv => Js.set obj kv.1 kv.2) entries ∅.

Definition _getSymbolsFromSettings (keys : list string) (st : State)
  : gmap string JsVal :=
  Object_fromEntries
    (List.map (fun key => (key, get_string (settings st) key)) keys).

Section Schema.

(** [this._settings.get_default_value(key).deep_unpack()]: the defaults are
    data of the schema file, which the store is compiled from; they are
    taken as they come. *)
Variable get_default_value : string -> JsVal.


End Schema.

(** ** DialogManager *)

(** A label attached to the comparison grid: its text, whether it carries
    the 'heading' class, and the column and row it is attached at (every
    label spans one cell).  Alignment, spacing and width are left out. *)
Record GridCell : Type := {
  cell_label : JsVal;
  cell_heading : bool;
  cell_col : nat;
  cell_row : nat
}.

(** The variables the loop of [_createComparisonGrid] updates. *)
Record GridLoop : Type := {
  loop_grid : list GridCell;
  loop_row : nat;
  loop_hasChanges : bool
}.

Section Dialog.

(** [_(schema.get_key(key).get_summary())]: the translated summary the
    schema gives for a key. *)
Variable get_summary : string -> string.

(** Returns the grid, or [None] for [null].  The two fixed headers are
    given untranslated. *)
Definition _createComparisonGrid (title : string) (keys : list string)
  (st : State) : option (list GridCell) :=
  let headers := [JString title; JString "Custom"; JString "Saved"] in
  let grid :=
    Js.forEach (fun header col grid =>
      (grid ++ [{| cell_label := header; cell_heading := true;
                   cell_col := col; cell_row := 0 |}])%list) headers [] in
  let acc :=
    Js.forEach (fun key _ acc =>
      let current := Js.nullish (Js.get (currentSymbols st) key)
                       (JString "") in
      let saved := Js.nullish (Js.get (savedSymbols st) key) (JString "") in
      if Js.strict_ne current saved then
        let cells := [JString (get_summary key); current; saved] in
        let grid :=
          Js.forEach (fun value col grid =>
            (grid ++ [{| cell_label := value;
                         cell_heading := Nat.eqb col 0;
                         cell_col := col; cell_row := loop_row acc |}])%list)
            cells (loop_grid acc) in
        {| loop_grid := grid; loop_row := S (loop_row acc);
           loop_hasChanges := true |}
      else acc) keys
      {| loop_grid := grid; loop_row := 1; loop_hasChanges := false |} in
  if loop_hasChanges acc then Some (loop_grid acc) else None.

End Dialog.

(** ** Counting and draining the idle queue *)

(** How many queued idle callbacks will unblock the handler of the entry
    stored under [key]. *)
Definition pending_unblocks (key : string) (st : State) : nat :=
  count_occ String.string_dec (idle st) key.

(** Every handler is blocked exactly as many times as unblocking
    callbacks wait for it. *)
Definition handlers_balanced (st : State) : Prop :=
  forall key e, entries st !! key = Some e ->
    block_count e = pending_unblocks key st.

(** The main loop runs every idle callback that is waiting. *)
Definition drain_idle (st : State) : State :=
  Nat.iter (length (idle st)) run_idle st.

(** The keys whose cached value and saved value differ under [??], as the
    comparison grid tests them. *)
Definition grid_differs (st : State) (key : string) : bool :=
  Js.strict_ne (Js.nullish (Js.get (currentSymbols st) key) (JString ""))
               (Js.nullish (Js.get (savedSymbols st) key) (JString "")).

(** The three labels of the grid row of [key], attached at [row]. *)
Definition grid_row (get_summary : string -> string) (st : State)
  (key : string) (row : nat) : list GridCell :=
  [{| cell_label := JString (get_summary key); cell_heading := true;
      cell_col := 0; cell_row := row |};
   {| cell_label := Js.nullish (Js.get (currentSymbols st) key) (JString "");
      cell_heading := false; cell_col := 1; cell_row := row |};
   {| cell_label := Js.nullish (Js.get (savedSymbols st) key) (JString "");
      cell_heading := false; cell_col := 2; cell_row := row |}].

(** The header labels of the grid. *)
Definition grid_headers (title : string) : list GridCell :=
  [{| cell_label := JString title; cell_heading := true;
      cell_col := 0; cell_row := 0 |};
   {| cell_label := JString "Custom"; cell_heading := true;
      cell_col := 1; cell_row := 0 |};
   {| cell_label := JString "Saved"; cell_heading := true;
      cell_col := 2; cell_row := 0 |}].

(** Rows for a list of keys, numbered from [row] on. *)
Fixpoint grid_rows (get_summary : string -> string) (st : State)
  (keys : list string) (row : nat) : list GridCell :=
  match keys with
  | [] => []
  | key :: keys' =>
      (grid_row get_summary st key row
       ++ grid_rows get_summary st keys' (S row))%list
  end.

(** A window with a cached symbol that is not saved yet, and one whose
    cache reads [undefined] for a key. *)
Definition edited_window : State :=
  handle shift_manager (UserEditsEntry "shift" "S") shift_window.

(** A window whose cached preset is one empty icon path while another
    process has stored a preset holding the current symbol of shift. *)
Definition stale_window : State :=
  handle shift_manager (OutsideSetSaved {["shift-symbol" := "⇧"]})
    (with_savedSymbols {["caps-icon-path" := JString ""]} sample_window).

(** ** The store with its write errors *)

(** Modelled from the spec: the schema file the store is compiled from is
    not among the sources.  Section 6 declares, for each modifier, the
    symbol and the icon-path key as strings and the use-icon key as a
    boolean. *)
Inductive KeyType : Type :=
| TString
| TBoolean.

Definition string_keys : list string :=
  flat_map (fun name => [symbol (modifierKeys name);
                         icon (modifierKeys name)]) MODIFIERS.

Definition boolean_keys : list string :=
  List.map (fun name => useIcon (modifierKeys name)) MODIFIERS.

Definition declared_type (key : string) : option KeyType :=
  if bool_decide (key ∈ string_keys) then Some TString
  else if bool_decide (key ∈ boolean_keys) then Some TBoolean
  else None.

(** Modelled from the spec: section 4.1 makes a write fail with
    [WriteError] when the key is unknown to the schema or the value is
    not of the key's declared type; [None] is that error.  A write that
    passes both checks is the write of [set_string]. *)
Definition set_string_strict (gs : GSettings) (key : string) (value : JsVal)
  : option GSettings :=
  match declared_type key with
  | Some TString =>
      match value with
      | JString _ =>
          if has_schema_key gs key then Some (set_string gs key value)
          else None
      | _ => None
      end
  | _ => None
  end.

(** How a call ends: it returns, or an error leaves it through its
    caller; either way in the state reached until then. *)
Inductive Outcome : Type :=
| Returned (st : State)
| Threw (st : State).

Definition threw (o : Outcome) : bool :=
  match o with
  | Returned _ => false
  | Threw _ => true
  end.

Definition outcome_state (o : Outcome) : State :=
  match o with
  | Returned st => st
  | Threw st => st
  end.

(** [setString] over the store with write errors: the error leaves the
    method before the cache is written. *)
Definition setString_strict (key : string) (value : JsVal) (st : State)
  : Outcome :=
  match set_string_strict (settings st) key value with
  | Some gs =>
      let st := with_settings gs st in
      Returned (with_currentSymbols (Js.set (currentSymbols st) key value) st)
  | None => Threw st
  end.

(** [arr.forEach] with a callback that can throw: the first error ends
    the loop. *)
Fixpoint forEach_throwing {A : Type} (body : A -> nat -> State -> Outcome)
  (i : nat) (l : list A) (st : State) : Outcome :=
  match l with
  | [] => Returned st
  | x :: l' =>
      match body x i st with
      | Returned st' => forEach_throwing body (S i) l' st'
      | Threw st' => Threw st'
      end
  end.

(** [applyDefaults] over the store with write errors. *)
Definition applyDefaults_body_strict
  (changeCallback : string -> JsVal -> State -> State)
  (this : SimpleManager) (key : string) (i : nat) (st : State) : Outcome :=
  let value := Js.index (defaultValues this) i in
  if Js.strict_ne (Js.get (currentSymbols st) key) value then
    let st := updateEntry changeCallback key value st in
    setString_strict key value st
  else Returned st.

Definition applyDefaults_strict
  (changeCallback : string -> JsVal -> State -> State)
  (this : SimpleManager) (st : State) : Outcome :=
  let st := debug (LogApplyingDefaults (defaultValues this)) st in
  forEach_throwing (applyDefaults_body_strict changeCallback this) 0
    (keys this) st.

(** A manager whose default list stops before its key list. *)
Definition short_manager : SimpleManager :=
  {| keys := ["shift-symbol"; "caps-symbol"];
     defaultValues := [JString "⇧"] |}.

(** * Properties *)

(** ** JavaScript operators *)

Lemma strict_eq_true (a b : JsVal) : Js.strict_eq a b = true <-> a = b.
Proof.
  destruct a, b; simpl; split; intros H; try discriminate; try reflexivity.
  - apply Bool.eqb_prop in H. by subst.
  - injection H as ->. apply Bool.eqb_reflx.
  - apply String.eqb_eq in H. by subst.
  - injection H as ->. apply String.eqb_refl.
Qed.

Lemma strict_eq_false (a b : JsVal) : Js.strict_eq a b = false <-> a ≠ b.
Proof.
  rewrite <- strict_eq_true. destruct (Js.strict_eq a b); split; intros;
    congruence.
Qed.

Lemma strict_ne_false (a b : JsVal) : Js.strict_ne a b = false <-> a = b.
Proof.
  unfold Js.strict_ne. rewrite negb_false_iff. apply strict_eq_true.
Qed.

Lemma strict_ne_true (a b : JsVal) : Js.strict_ne a b = true <-> a ≠ b.
Proof.
  unfold Js.strict_ne. rewrite negb_true_iff. apply strict_eq_false.
Qed.

Lemma nullish_not_undefined (a : JsVal) (s : string) :
  Js.nullish a (JString s) ≠ JUndefined.
Proof. by destruct a. Qed.

Lemma get_insert_eq (obj : gmap string JsVal) (k : string) (v : JsVal) :
  Js.get (Js.set obj k v) k = v.
Proof. unfold Js.get, Js.set. by rewrite lookup_insert_eq. Qed.

Lemma get_insert_ne (obj : gmap string JsVal) (k k' : string) (v : JsVal) :
  k ≠ k' -> Js.get (Js.set obj k v) k' = Js.get obj k'.
Proof. intros Hne. unfold Js.get, Js.set. by rewrite lookup_insert_ne. Qed.

Lemma every_from_lookup {A : Type} (p : A -> nat -> bool) (l : list A)
  (i : nat) :
  Js.every_from p i l = true <->
  forall j x, l !! j = Some x -> p x (i + j) = true.
Proof.
  revert i. induction l as [|a l IH]; intros i; simpl.
  - split; [intros _ j x Hj; by rewrite lookup_nil in Hj | done].
  - rewrite andb_true_iff, IH. split.
    + intros [Ha Hl] [|j] x Hj; simpl in Hj.
      * injection Hj as <-. by rewrite Nat.add_0_r.
      * rewrite Nat.add_succ_r. by apply Hl.
    + intros H. split.
      * specialize (H 0 a eq_refl). by rewrite Nat.add_0_r in H.
      * intros j x Hj. specialize (H (S j) x Hj).
        by rewrite Nat.add_succ_r in H.
Qed.

Lemma every_lookup {A : Type} (p : A -> nat -> bool) (l : list A) :
  Js.every p l = true <-> forall j x, l !! j = Some x -> p x j = true.
Proof. unfold Js.every. by rewrite every_from_lookup. Qed.

Lemma every_from_Forall {A : Type} (p : A -> bool) (l : list A) (i : nat) :
  Js.every_from (fun x _ => p x) i l = true <->
  Forall (fun x => p x = true) l.
Proof.
  revert i. induction l as [|a l IH]; intros i; simpl.
  - split; [constructor | done].
  - rewrite andb_true_iff, IH, Forall_cons. tauto.
Qed.

Lemma some_false {A : Type} (p : A -> bool) (l : list A) :
  Js.some p l = false <-> Forall (fun x => p x = false) l.
Proof.
  induction l as [|a l IH]; simpl.
  - split; [constructor | done].
  - rewrite orb_false_iff, IH, Forall_cons. tauto.
Qed.

Lemma some_true {A : Type} (p : A -> bool) (l : list A) :
  Js.some p l = true <-> Exists (fun x => p x = true) l.
Proof.
  induction l as [|a l IH]; simpl.
  - split; [done | by intros H; inversion H].
  - rewrite orb_true_iff, IH, Exists_cons. tauto.
Qed.

(** A property every turn of a [forEach] keeps holds after the loop. *)
Lemma forEach_from_invariant {A St : Type} (Q : St -> Prop)
  (f : A -> nat -> St -> St) (l : list A) (i : nat) (s : St) :
  Q s -> (forall a j s, Q s -> Q (f a j s)) -> Q (Js.forEach_from f i l s).
Proof.
  intros Hs Hf. revert i s Hs.
  induction l as [|a l IH]; intros i s Hs; simpl; [done |].
  apply IH. by apply Hf.
Qed.

Lemma keys_length (obj : gmap string JsVal) :
  length (Js.keys obj) = size obj.
Proof. unfold Js.keys. by rewrite length_fmap, length_map_to_list. Qed.

Lemma elem_of_keys (obj : gmap string JsVal) (k : string) :
  k ∈ Js.keys obj <-> is_Some (obj !! k).
Proof.
  unfold Js.keys. rewrite list_elem_of_fmap. split.
  - intros [[k' v] [-> Hin]]. apply elem_of_map_to_list in Hin. by exists v.
  - intros [v Hv]. exists (k, v). split; [done |].
    by apply elem_of_map_to_list.
Qed.

(** ** Reading a field after an update *)

Lemma currentSymbols_debug (line : LogLine) (st : State) :
  currentSymbols (debug line st) = currentSymbols st.
Proof. reflexivity. Qed.

Lemma savedSymbols_debug (line : LogLine) (st : State) :
  savedSymbols (debug line st) = savedSymbols st.
Proof. reflexivity. Qed.

Lemma currentSymbols_with_savedSymbols (x : gmap string JsVal) (st : State) :
  currentSymbols (with_savedSymbols x st) = currentSymbols st.
Proof. reflexivity. Qed.

Lemma currentSymbols_with_buttons (r v : bool) (st : State) :
  currentSymbols (with_buttons r v st) = currentSymbols st.
Proof. reflexivity. Qed.

Lemma savedSymbols_with_buttons (r v : bool) (st : State) :
  savedSymbols (with_buttons r v st) = savedSymbols st.
Proof. reflexivity. Qed.

Lemma currentSymbols_updateButtonStates (sm : SimpleManager) (st : State) :
  currentSymbols (_updateButtonStates sm st) = currentSymbols st.
Proof. reflexivity. Qed.

Lemma savedSymbols_updateButtonStates (sm : SimpleManager) (st : State) :
  savedSymbols (_updateButtonStates sm st) = savedSymbols st.
Proof. reflexivity. Qed.

Lemma savedSymbols_loadCurrentState (st : State) :
  savedSymbols (_loadCurrentState st) = get_saved_symbols (settings st).
Proof.
  unfold _loadCurrentState, Js.forEach. cbv zeta.
  rewrite !savedSymbols_debug.
  change (savedSymbols (with_savedSymbols ?x ?s)) with x.
  match goal with
  | |- get_saved_symbols (settings ?s) = _ =>
      assert (Hset : settings s = settings st)
  end.
  { apply (forEach_from_invariant (fun s => settings s = settings st));
      [reflexivity |].
    intros n j s Hs. exact Hs. }
  by rewrite Hset.
Qed.

Lemma settings_new_SettingsManager (line : LogLine) (gs : GSettings) :
  settings (debug line (new_SettingsManager gs)) = gs.
Proof. reflexivity. Qed.

(** ** Comparison with the saved preset *)

Lemma isCurrentEqualToSaved_Forall (this : SimpleManager) (st : State) :
  isCurrentEqualToSaved this st = true <->
  Forall (fun key =>
    Js.strict_eq (Js.get (currentSymbols st) key)
      (Js.nullish (Js.get (savedSymbols st) key) (JString "")) = true)
    (keys this).
Proof.
  unfold isCurrentEqualToSaved, currentDiffersFromSaved.
  rewrite negb_true_iff, some_false.
  apply Forall_iff. intros key. unfold Js.strict_ne.
  by rewrite negb_false_iff.
Qed.

(** C5: [isCurrentEqualToSaved] is the negation of
    [currentDiffersFromSaved], and it returns true exactly when every key
    of the list satisfies [current[key] === (saved[key] ?? '')]; so when
    the saved dictionary has no [caps-icon-path] and the current value of
    that key is the empty string, the comparison over that key is true. *)
Theorem isCurrentEqualToSaved_spec (this : SimpleManager) (st : State) :
  isCurrentEqualToSaved this st
    = negb (currentDiffersFromSaved (keys this) st) /\
  (isCurrentEqualToSaved this st = true <->
   Forall (fun key =>
     Js.strict_eq (Js.get (currentSymbols st) key)
       (Js.nullish (Js.get (savedSymbols st) key) (JString "")) = true)
     (keys this)) /\
  (keys this = ["caps-icon-path"] ->
   savedSymbols st !! "caps-icon-path" = None ->
   Js.get (currentSymbols st) "caps-icon-path" = JString "" ->
   isCurrentEqualToSaved this st = true).
Proof.
  pose proof (isCurrentEqualToSaved_Forall this st) as Hiff.
  split; [reflexivity |]. split; [exact Hiff |].
  intros Hkeys Hsaved Hcur. apply Hiff. rewrite Hkeys.
  constructor; [| constructor].
  unfold Js.get at 2. rewrite Hsaved. simpl. rewrite Hcur. reflexivity.
Qed.

Lemma isCurrentEqualToSaved_spec_witness :
  isCurrentEqualToSaved
    {| keys := ["caps-icon-path"]; defaultValues := [] |} sample_window
  = true.
Proof.
  destruct (isCurrentEqualToSaved_spec
              {| keys := ["caps-icon-path"]; defaultValues := [] |}
              sample_window) as (_ & _ & H).
  apply H; [reflexivity | vm_compute; reflexivity ..].
Defined.

(** C10: [symbolsEqual] is false whenever the two dictionaries have
    different numbers of keys; with equal numbers it is true exactly when
    [(obj1[k] ?? '') === (obj2[k] ?? '')] for every key [k] of the first.
    Hence two dictionaries of the same size holding only empty strings are
    equal whatever their keys are, and a dictionary differs from itself
    extended with a new key bound to the empty string. *)
Theorem symbolsEqual_spec (obj1 obj2 : gmap string JsVal) :
  (size obj1 ≠ size obj2 -> symbolsEqual obj1 obj2 = false) /\
  (size obj1 = size obj2 ->
   (symbolsEqual obj1 obj2 = true <->
    forall k, is_Some (obj1 !! k) ->
      Js.strict_eq (Js.nullish (Js.get obj1 k) (JString ""))
                   (Js.nullish (Js.get obj2 k) (JString "")) = true)) /\
  (size obj1 = size obj2 ->
   (forall k v, obj1 !! k = Some v -> v = JString "") ->
   (forall k v, obj2 !! k = Some v -> v = JString "") ->
   symbolsEqual obj1 obj2 = true) /\
  (forall k, obj1 !! k = None ->
   symbolsEqual obj1 (<[k := JString ""]> obj1) = false /\
   symbolsEqual (<[k := JString ""]> obj1) obj1 = false).
Proof.
  assert (Hne : forall m1 m2 : gmap string JsVal,
             size m1 ≠ size m2 -> symbolsEqual m1 m2 = false).
  { intros m1 m2 H. unfold symbolsEqual. rewrite !keys_length.
    apply Nat.eqb_neq in H. by rewrite H. }
  assert (Heq : forall m1 m2 : gmap string JsVal,
             size m1 = size m2 ->
             (symbolsEqual m1 m2 = true <->
              forall k, is_Some (m1 !! k) ->
                Js.strict_eq (Js.nullish (Js.get m1 k) (JString ""))
                  (Js.nullish (Js.get m2 k) (JString "")) = true)).
  { intros m1 m2 H. unfold symbolsEqual. rewrite !keys_length.
    apply Nat.eqb_eq in H. rewrite H. simpl. unfold Js.every.
    rewrite (every_from_Forall
               (fun key => Js.strict_eq
                  (Js.nullish (Js.get m1 key) (JString ""))
                  (Js.nullish (Js.get m2 key) (JString "")))).
    rewrite Forall_forall. split.
    - intros Hall k Hk. apply Hall. by apply elem_of_keys.
    - intros Hall k Hk. apply Hall. by apply elem_of_keys. }
  split; [apply Hne |]. split; [apply Heq |]. split.
  - intros Hsize H1 H2. apply Heq; [done |].
    intros k [v Hv]. unfold Js.get. rewrite Hv. simpl.
    rewrite (H1 k v Hv). simpl.
    destruct (obj2 !! k) as [w|] eqn:Hw; simpl; [| done].
    by rewrite (H2 k w Hw).
  - intros k Hk. split; apply Hne; rewrite map_size_insert_None by done; lia.
Qed.

Lemma symbolsEqual_spec_witness :
  symbolsEqual {["shift-icon-path" := JString ""]}
               {["caps-icon-path" := JString ""]} = true /\
  symbolsEqual ∅ {["caps-icon-path" := JString ""]} = false.
Proof.
  split.
  - destruct (symbolsEqual_spec {["shift-icon-path" := JString ""]}
                {["caps-icon-path" := JString ""]}) as (_ & _ & H & _).
    apply H.
    + vm_compute; reflexivity.
    + intros k v Hk. apply lookup_singleton_Some in Hk. by destruct Hk.
    + intros k v Hk. apply lookup_singleton_Some in Hk. by destruct Hk.
  - destruct (symbolsEqual_spec ∅ ∅) as (_ & _ & _ & H).
    apply (H "caps-icon-path"). reflexivity.
Defined.

(** ** Saving the current values as the preset *)

(** The loop of [saveCurrentAsPreset] writes the saved dictionary only. *)
Lemma save_loop_spec (l : list string) (i : nat) (st : State) :
  let st' :=
    Js.forEach_from (fun key (_ : nat) st =>
      with_savedSymbols
        (Js.set (savedSymbols st) key (Js.get (currentSymbols st) key)) st)
      i l st in
  currentSymbols st' = currentSymbols st /\
  settings st' = settings st /\
  (forall k, k ∉ l -> savedSymbols st' !! k = savedSymbols st !! k) /\
  (forall k, k ∈ l ->
     savedSymbols st' !! k = Some (Js.get (currentSymbols st) k)).
Proof.
  revert i st. induction l as [|a l IH]; intros i st; simpl.
  - repeat split; try done. intros k Hk. by apply elem_of_nil in Hk.
  - specialize (IH (S i) (with_savedSymbols
      (Js.set (savedSymbols st) a (Js.get (currentSymbols st) a)) st)).
    simpl in IH. destruct IH as (Hcur & Hset & Hout & Hin).
    split; [done |]. split; [done |]. split.
    + intros k Hk. apply not_elem_of_cons in Hk as [Hka Hkl].
      rewrite Hout by done. unfold Js.set. by rewrite lookup_insert_ne.
    + intros k Hk. destruct (decide (k ∈ l)) as [Hkl|Hkl].
      * by apply Hin.
      * apply elem_of_cons in Hk as [->|Hk]; [| done].
        rewrite Hout by done. unfold Js.set. by rewrite lookup_insert_eq.
Qed.

Lemma saveCurrentAsPreset_fields (this : SimpleManager) (st : State) :
  let st' := saveCurrentAsPreset this st in
  currentSymbols st' = currentSymbols st /\
  gs_saved_symbols (settings st') = savedSymbols st' /\
  (forall k, k ∉ keys this -> savedSymbols st' !! k = savedSymbols st !! k) /\
  (forall k, k ∈ keys this ->
     savedSymbols st' !! k = Some (Js.get (currentSymbols st) k)).
Proof.
  unfold saveCurrentAsPreset, Js.forEach. simpl.
  destruct (save_loop_spec (keys this) 0 st) as (Hcur & _ & Hout & Hin).
  simpl in *. auto.
Qed.

(** C6: [saveCurrentAsPreset] never removes or changes an entry of the
    saved dictionary whose key is outside the manager's key list; the keys
    of the list receive the current values; and the dictionary written to
    the store is the whole saved dictionary, so it holds the untouched
    entries next to the promoted ones. *)
Theorem saveCurrentAsPreset_additive (this : SimpleManager) (st : State) :
  let st' := saveCurrentAsPreset this st in
  (forall k, k ∉ keys this -> savedSymbols st' !! k = savedSymbols st !! k) /\
  (forall k, k ∈ keys this ->
     savedSymbols st' !! k = Some (Js.get (currentSymbols st) k)) /\
  (forall k, k ∉ keys this ->
     get_saved_symbols (settings st') !! k = savedSymbols st !! k) /\
  (forall k, k ∈ keys this ->
     get_saved_symbols (settings st') !! k
       = Some (Js.get (currentSymbols st) k)).
Proof.
  pose proof (saveCurrentAsPreset_fields this st) as H. cbv zeta in *.
  destruct H as (_ & Hstore & Hout & Hin).
  unfold get_saved_symbols. rewrite Hstore. auto.
Qed.

Lemma saveCurrentAsPreset_additive_witness :
  let st := with_savedSymbols {["custom-key" := JString "kept"]}
              sample_window in
  let st' := saveCurrentAsPreset
               {| keys := ["shift-symbol"]; defaultValues := [] |} st in
  savedSymbols st' !! "custom-key" = Some (JString "kept") /\
  savedSymbols st' !! "shift-symbol" = Some (JString "⇧") /\
  get_saved_symbols (settings st') !! "custom-key" = Some (JString "kept") /\
  get_saved_symbols (settings st') !! "shift-symbol" = Some (JString "⇧").
Proof.
  intros st st'.
  destruct (saveCurrentAsPreset_additive
              {| keys := ["shift-symbol"]; defaultValues := [] |} st)
    as (H1 & H2 & H3 & H4).
  assert (Hout : "custom-key" ∉ ["shift-symbol"]).
  { intros H. apply list_elem_of_singleton in H. discriminate. }
  assert (Hin : "shift-symbol" ∈ ["shift-symbol"]).
  { apply list_elem_of_singleton. reflexivity. }
  split; [| split; [| split]].
  - exact (H1 "custom-key" Hout).
  - exact (H2 "shift-symbol" Hin).
  - exact (H3 "custom-key" Hout).
  - exact (H4 "shift-symbol" Hin).
Defined.

(** ** Pushing a value into an entry *)

Section EntryFacts.

Variable changeCallback : string -> JsVal -> State -> State.

(** What [updateEntry] does to a bound entry, field by field: the text is
    replaced, the handler is blocked once more, one unblocking callback is
    queued and one line is logged.  The callback does not occur in the
    result. *)
Lemma updateEntry_bound (key : string) (value : JsVal) (st : State)
  (e : Entry) :
  entries st !! key = Some e ->
  updateEntry changeCallback key value st
  = {| settings := settings st; currentSymbols := currentSymbols st;
       currentUseIcon := currentUseIcon st; savedSymbols := savedSymbols st;
       entries :=
         <[key := {| text := value; block_count := S (block_count e) |}]>
           (entries st);
       idle := (idle st ++ [key])%list;
       resetButton_sensitive := resetButton_sensitive st;
       saveButton_visible := saveButton_visible st;
       console := (console st ++ [LogUpdatingEntry key (text e) value])%list
    |}.
Proof.
  intros He. unfold updateEntry. rewrite He.
  unfold block_signal_handler. rewrite He.
  unfold entry_set_text. simpl. rewrite lookup_insert_eq. simpl.
  unfold idle_add_unblock, with_idle, with_entries. simpl.
  by rewrite insert_insert_eq.
Qed.

Lemma updateEntry_unbound (key : string) (value : JsVal) (st : State) :
  entries st !! key = None -> updateEntry changeCallback key value st = st.
Proof. intros He. unfold updateEntry. by rewrite He. Qed.

(** [updateEntry] touches the widgets, the idle queue and the console
    only. *)
Lemma updateEntry_cache (key : string) (value : JsVal) (st : State) :
  let st' := updateEntry changeCallback key value st in
  settings st' = settings st /\
  currentSymbols st' = currentSymbols st /\
  currentUseIcon st' = currentUseIcon st /\
  savedSymbols st' = savedSymbols st /\
  resetButton_sensitive st' = resetButton_sensitive st /\
  saveButton_visible st' = saveButton_visible st.
Proof.
  destruct (entries st !! key) as [e|] eqn:He; simpl.
  - by rewrite (updateEntry_bound key value st e He).
  - by rewrite (updateEntry_unbound key value st He).
Qed.

End EntryFacts.

(** ** Resetting to the default values *)

Section ApplyDefaults.

Variable changeCallback : string -> JsVal -> State -> State.
Variable this : SimpleManager.

Lemma applyDefaults_unfold (st : State) :
  applyDefaults changeCallback this st
  = Js.forEach_from (applyDefaults_body changeCallback this) 0 (keys this)
      (debug (LogApplyingDefaults (defaultValues this)) st).
Proof. reflexivity. Qed.

Lemma applyDefaults_body_same (key : string) (i : nat) (st : State) :
  Js.get (currentSymbols (applyDefaults_body changeCallback this key i st)) key
  = Js.index (defaultValues this) i.
Proof.
  unfold applyDefaults_body.
  destruct (Js.strict_ne _ _) eqn:Hne.
  - unfold setString. simpl. apply get_insert_eq.
  - by apply strict_ne_false in Hne.
Qed.

Lemma applyDefaults_body_other (key k : string) (i : nat) (st : State) :
  key ≠ k ->
  Js.get (currentSymbols (applyDefaults_body changeCallback this key i st)) k
  = Js.get (currentSymbols st) k.
Proof.
  intros Hk. unfold applyDefaults_body.
  destruct (Js.strict_ne _ _) eqn:Hne; [| done].
  unfold setString. simpl. rewrite get_insert_ne by done.
  pose proof (updateEntry_cache changeCallback key
                (Js.index (defaultValues this) i) st) as H.
  cbv zeta in H. destruct H as (_ & -> & _). done.
Qed.

Lemma applyDefaults_loop (l : list string) (i : nat) (st : State) :
  NoDup l ->
  let st' := Js.forEach_from (applyDefaults_body changeCallback this) i l st in
  (forall k, k ∉ l ->
     Js.get (currentSymbols st') k = Js.get (currentSymbols st) k) /\
  (forall j k, l !! j = Some k ->
     Js.get (currentSymbols st') k = Js.index (defaultValues this) (i + j)).
Proof.
  revert i st. induction l as [|a l IH]; intros i st Hnd; simpl.
  - split; [done |]. intros j k Hj. by rewrite lookup_nil in Hj.
  - apply NoDup_cons in Hnd as [Ha Hnd].
    destruct (IH (S i) (applyDefaults_body changeCallback this a i st) Hnd) as [Hout Hin].
    split.
    + intros k Hk. apply not_elem_of_cons in Hk as [Hka Hkl].
      rewrite Hout by done. by apply applyDefaults_body_other.
    + intros [|j] k Hj; simpl in Hj.
      * injection Hj as <-. rewrite Hout by done.
        rewrite Nat.add_0_r. apply applyDefaults_body_same.
      * rewrite Hin with (j := j) by done. f_equal. lia.
Qed.

End ApplyDefaults.

(** When no write is refused: for a manager over a set of keys (no key
    listed twice), once [applyDefaults] has run, every key's cached value
    is [===] to the value listed at the key's position, and so
    [isCurrentEqualToDefault] returns true. *)
Lemma applyDefaults_then_default
  (changeCallback : string -> JsVal -> State -> State)
  (this : SimpleManager) (st : State) :
  NoDup (keys this) ->
  let st' := applyDefaults changeCallback this st in
  isCurrentEqualToDefault this st' = true /\
  (forall i key, keys this !! i = Some key ->
     Js.strict_eq (Js.get (currentSymbols st') key)
                  (Js.index (defaultValues this) i) = true).
Proof.
  intros Hnd st'.
  assert (H : forall i key, keys this !! i = Some key ->
     Js.strict_eq (Js.get (currentSymbols st') key)
                  (Js.index (defaultValues this) i) = true).
  { intros i key Hi. apply strict_eq_true. subst st'.
    rewrite applyDefaults_unfold.
    destruct (applyDefaults_loop changeCallback this (keys this) 0
                (debug (LogApplyingDefaults (defaultValues this)) st) Hnd)
      as [_ Hin].
    by rewrite (Hin i key Hi). }
  split; [| exact H].
  unfold isCurrentEqualToDefault. apply every_lookup. exact H.
Qed.

Lemma group_keys_NoDup : NoDup group_keys.
Proof. apply (bool_decide_unpack _). vm_compute. reflexivity. Qed.

(** Without the blocking, the same write runs the handler: an unblocked
    entry that receives a text logs the change and calls the callback. *)
Lemma entry_set_text_unblocked
  (changeCallback : string -> JsVal -> State -> State)
  (key : string) (value : JsVal) (st : State) (e : Entry) :
  entries st !! key = Some e -> block_count e = 0 ->
  entry_set_text changeCallback key value st
  = changeCallback key value
      (debug (LogEntryChanged key value)
         (with_entries
            (<[key := {| text := value; block_count := 0 |}]> (entries st))
            st)).
Proof.
  intros He Hb. unfold entry_set_text. rewrite He, Hb. simpl.
  unfold on_entry_changed. simpl. by rewrite lookup_insert_eq.
Qed.

(** C7: [updateEntry] on a bound entry never runs the callback the entry
    was added with: whatever the callback is, the result is the same
    state, and the console gains the 'Updating entry' line only, no 'Entry
    changed' line.  The handler is blocked before the text is written and
    is still blocked when [updateEntry] returns; the unblocking waits in
    the idle queue, and running it from the main loop brings the block
    count back to what it was. *)
Theorem updateEntry_no_echo
  (changeCallback : string -> JsVal -> State -> State)
  (key : string) (value : JsVal) (st : State) (e : Entry) :
  entries st !! key = Some e ->
  let st' := updateEntry changeCallback key value st in
  (forall other : string -> JsVal -> State -> State,
     updateEntry other key value st = st') /\
  console st' = (console st ++ [LogUpdatingEntry key (text e) value])%list /\
  currentSymbols st' = currentSymbols st /\
  settings st' = settings st /\
  entries st' !! key
    = Some {| text := value; block_count := S (block_count e) |} /\
  idle st' = (idle st ++ [key])%list /\
  (idle st = [] ->
   entries (run_idle st') !! key
     = Some {| text := value; block_count := block_count e |} /\
   idle (run_idle st') = []).
Proof.
  intros He st'. subst st'.
  rewrite (updateEntry_bound changeCallback key value st e He).
  split.
  { intros other. by rewrite (updateEntry_bound other key value st e He). }
  simpl. split; [done |]. split; [done |]. split; [done |].
  split; [by rewrite lookup_insert_eq |]. split; [done |].
  intros Hidle. unfold run_idle. simpl. rewrite Hidle. simpl.
  unfold unblock_signal_handler. simpl. rewrite lookup_insert_eq. simpl.
  by rewrite lookup_insert_eq.
Qed.

Lemma updateEntry_no_echo_witness :
  let cb := changeCallback_of group_manager in
  let st' := updateEntry cb "shift-symbol" (JString "S") sample_window in
  console st'
  = (console sample_window
       ++ [LogUpdatingEntry "shift-symbol" (JString "⇧") (JString "S")])%list
  /\ entries st' !! "shift-symbol"
     = Some {| text := JString "S"; block_count := 1 |}
  /\ entries (run_idle st') !! "shift-symbol"
     = Some {| text := JString "S"; block_count := 0 |}.
Proof.
  intros cb st'.
  assert (He : entries sample_window !! "shift-symbol"
               = Some {| text := JString "⇧"; block_count := 0 |}).
  { vm_compute. reflexivity. }
  destruct (updateEntry_no_echo cb "shift-symbol" (JString "S")
              sample_window _ He) as (_ & Hc & _ & _ & Hb & _ & Hi).
  split; [exact Hc |]. split; [exact Hb |].
  apply Hi. vm_compute. reflexivity.
Defined.

(** ** Store notifications *)

(** C8: when the store notifies a change of a key and the value it now
    holds is [===] to the cached current value, the handler leaves the
    whole state as it was: no line reaches the console (so no button
    update ran and no entry was written), the widgets and the idle queue
    are untouched and the cache is unchanged.  This holds for the symbol
    handler and, in the same way, for the icon-path and use-icon
    handlers. *)
Theorem on_changed_echo_noop (sm : SimpleManager) (name : string)
  (st : State) :
  (Js.strict_eq (get_string (settings st) (symbol (modifierKeys name)))
     (Js.get (currentSymbols st) (symbol (modifierKeys name))) = true ->
   on_symbol_changed sm name st = st) /\
  (Js.strict_eq (get_string (settings st) (icon (modifierKeys name)))
     (Js.get (currentSymbols st) (icon (modifierKeys name))) = true ->
   on_icon_changed sm name st = st) /\
  (Js.strict_eq (get_boolean (settings st) (useIcon (modifierKeys name)))
     (Js.get (currentUseIcon st) (useIcon (modifierKeys name))) = true ->
   on_useIcon_changed sm name st = st).
Proof.
  split; [| split]; intros H; apply strict_eq_true in H.
  - unfold on_symbol_changed. cbv zeta.
    replace (Js.strict_ne _ _) with false; [done |].
    symmetry. by apply strict_ne_false.
  - unfold on_icon_changed. cbv zeta.
    replace (Js.strict_ne _ _) with false; [done |].
    symmetry. by apply strict_ne_false.
  - unfold on_useIcon_changed. cbv zeta.
    replace (Js.strict_ne _ _) with false; [done |].
    symmetry. by apply strict_ne_false.
Qed.

Lemma on_changed_echo_noop_witness :
  on_symbol_changed group_manager "shift" sample_window = sample_window /\
  on_icon_changed group_manager "shift" sample_window = sample_window /\
  on_useIcon_changed group_manager "shift" sample_window = sample_window.
Proof.
  destruct (on_changed_echo_noop group_manager "shift" sample_window)
    as (H1 & H2 & H3).
  split; [| split].
  - apply H1. vm_compute. reflexivity.
  - apply H2. vm_compute. reflexivity.
  - apply H3. vm_compute. reflexivity.
Defined.

(** ** The header buttons *)

(** The two predicates read the cached current and saved dictionaries and
    nothing else. *)
Lemma buttons_reflect_ext (sm : SimpleManager) (st st' : State) :
  currentSymbols st' = currentSymbols st ->
  savedSymbols st' = savedSymbols st ->
  resetButton_sensitive st' = resetButton_sensitive st ->
  saveButton_visible st' = saveButton_visible st ->
  buttons_reflect_state sm st -> buttons_reflect_state sm st'.
Proof.
  intros Hc Hs Hr Hv [H1 H2].
  unfold buttons_reflect_state, isCurrentEqualToDefault,
    isCurrentEqualToSaved, currentDiffersFromSaved in *.
  rewrite Hc, Hs, Hr, Hv. by split.
Qed.

(** [_updateButtonStates] sets both buttons from the two predicates. *)
Lemma updateButtonStates_reflects (sm : SimpleManager) (st : State) :
  buttons_reflect_state sm (_updateButtonStates sm st).
Proof. split; reflexivity. Qed.

Lemma createEntryRows_fields (st : State) :
  let st' := _createEntryRows st in
  currentSymbols st' = currentSymbols st /\
  savedSymbols st' = savedSymbols st /\
  settings st' = settings st /\
  resetButton_sensitive st' = resetButton_sensitive st /\
  saveButton_visible st' = saveButton_visible st.
Proof.
  unfold _createEntryRows, Js.forEach.
  apply (forEach_from_invariant (fun s =>
    currentSymbols s = currentSymbols st /\
    savedSymbols s = savedSymbols st /\
    settings s = settings st /\
    resetButton_sensitive s = resetButton_sensitive st /\
    saveButton_visible s = saveButton_visible st)); [done |].
  intros name j s H. cbv zeta. by destruct (negb (row_has_schema name s)).
Qed.

Lemma debug_reflects (sm : SimpleManager) (line : LogLine) (st : State) :
  buttons_reflect_state sm st -> buttons_reflect_state sm (debug line st).
Proof. intros H. exact H. Qed.

Lemma createEntryRows_reflects (sm : SimpleManager) (st : State) :
  buttons_reflect_state sm st -> buttons_reflect_state sm (_createEntryRows st).
Proof.
  intros H. pose proof (createEntryRows_fields st) as Hf. cbv zeta in Hf.
  destruct Hf as (Hc & Hs & _ & Hr & Hv).
  exact (buttons_reflect_ext sm st _ Hc Hs Hr Hv H).
Qed.

Lemma fillPreferencesWindow_reflects (gs : GSettings) :
  buttons_reflect_state group_manager (fillPreferencesWindow gs).
Proof.
  unfold fillPreferencesWindow, _createPreferenceGroups, createGroup.
  cbv zeta.
  apply debug_reflects, debug_reflects, createEntryRows_reflects.
  unfold _setupButtonLogic. apply updateButtonStates_reflects.
Qed.

(** Every handler either ends with [_updateButtonStates] or leaves the
    cached dictionaries and the buttons alone. *)
Lemma handle_reflects (sm : SimpleManager) (ev : Event) (st : State) :
  buttons_reflect_state sm st -> buttons_reflect_state sm (handle sm ev st).
Proof.
  intros Hst. destruct ev; simpl.
  - (* the user edits an entry *)
    unfold entry_set_text.
    destruct (entries st !! _) as [e|] eqn:He; [| done].
    destruct (Nat.eqb (block_count e) 0).
    + unfold on_entry_changed. simpl. rewrite lookup_insert_eq. simpl.
      unfold changeCallback_of.
      destruct (List.find _ MODIFIERS) as [n|].
      * unfold symbol_changeCallback. cbv zeta.
        destruct (Js.strict_ne _ _).
        -- apply updateButtonStates_reflects.
        -- by apply (buttons_reflect_ext sm st).
      * by apply (buttons_reflect_ext sm st).
    + by apply (buttons_reflect_ext sm st).
  - (* a file was picked *)
    unfold on_file_picked. cbv zeta.
    destruct (Js.strict_ne _ _); [apply updateButtonStates_reflects | done].
  - apply updateButtonStates_reflects.
  - apply updateButtonStates_reflects.
  - apply updateButtonStates_reflects.
  - unfold on_symbol_changed. cbv zeta.
    destruct (Js.strict_ne _ _); [apply updateButtonStates_reflects | done].
  - unfold on_icon_changed. cbv zeta.
    destruct (Js.strict_ne _ _); [apply updateButtonStates_reflects | done].
  - unfold on_useIcon_changed. cbv zeta.
    destruct (Js.strict_ne _ _); [apply updateButtonStates_reflects | done].
  - unfold on_saved_symbols_changed. cbv zeta.
    destruct (negb _); [apply updateButtonStates_reflects |].
    by apply (buttons_reflect_ext sm st).
  - by apply (buttons_reflect_ext sm st).
  - by apply (buttons_reflect_ext sm st).
  - by apply (buttons_reflect_ext sm st).
  - (* an idle callback runs *)
    unfold run_idle. destruct (idle st) as [|k rest]; [done |].
    unfold unblock_signal_handler. simpl.
    destruct (entries st !! k); by apply (buttons_reflect_ext sm st).
Qed.

Lemma reachable_reflects (st : State) :
  Reachable st -> buttons_reflect_state group_manager st.
Proof.
  induction 1 as [gs | st ev _ IH _].
  - apply fillPreferencesWindow_reflects.
  - by apply handle_reflects.
Qed.

(** C9: in every state of the open window, at its creation and after
    every event (an edit, a picked file, a switch, a reset, a save, a
    store notification), the reset button is sensitive exactly when
    [isCurrentEqualToDefault] is false and the save button is visible
    exactly when [isCurrentEqualToSaved] is false. *)
Theorem buttons_always_reflect_state (st : State) :
  Reachable st ->
  (resetButton_sensitive st = true <->
   isCurrentEqualToDefault group_manager st = false) /\
  (saveButton_visible st = true <->
   isCurrentEqualToSaved group_manager st = false).
Proof.
  intros Hreach.
  destruct (reachable_reflects st Hreach) as [-> ->].
  by rewrite !negb_true_iff.
Qed.

Lemma buttons_always_reflect_state_witness :
  let st := handle group_manager SaveClicked
              (handle group_manager (UserEditsEntry "shift" "S")
                 sample_window) in
  (resetButton_sensitive st = true <->
   isCurrentEqualToDefault group_manager st = false) /\
  (saveButton_visible st = true <->
   isCurrentEqualToSaved group_manager st = false).
Proof.
  intros st. apply buttons_always_reflect_state. subst st.
  apply Reachable_step; [| reflexivity].
  apply Reachable_step; [| vm_compute; reflexivity].
  apply Reachable_init.
Defined.

(** ** The group as [_createPreferenceGroups] builds it

    The key list holds the three keys of every modifier, use-icon keys
    included, and the default values are the eight glyphs of the 'Symbols'
    preset.  The cache [currentSymbols] holds symbol and icon-path keys
    only, so a use-icon key reads as [undefined] there. *)

Lemma group_keys_eq :
  group_keys
  = ["shift-symbol"; "shift-icon-path"; "shift-use-icon";
     "caps-symbol"; "caps-icon-path"; "caps-use-icon";
     "control-symbol"; "control-icon-path"; "control-use-icon";
     "alt-symbol"; "alt-icon-path"; "alt-use-icon";
     "num-symbol"; "num-icon-path"; "num-use-icon";
     "scroll-symbol"; "scroll-icon-path"; "scroll-use-icon";
     "super-symbol"; "super-icon-path"; "super-use-icon";
     "altgr-symbol"; "altgr-icon-path"; "altgr-use-icon"].
Proof. reflexivity. Qed.

Lemma useIcon_in_group_keys (name : string) :
  name ∈ MODIFIERS -> useIcon (modifierKeys name) ∈ group_keys.
Proof.
  intros H. rewrite group_keys_eq. unfold MODIFIERS in H.
  repeat (apply elem_of_cons in H as [-> | H];
          [apply (bool_decide_unpack _); vm_compute; reflexivity |]).
  by apply elem_of_nil in H.
Qed.

(** Keys built from different suffixes differ: two strings whose
    characters differ at the same distance from the end are different. *)
Lemma string_length_app (a b : string) :
  String.length (a ++ b) = String.length a + String.length b.
Proof. induction a as [|c a IH]; simpl; [done | by rewrite IH]. Qed.

Lemma suffix_distinct (a b s t : string) (n m : nat) (c d : Ascii.ascii) :
  String.get n s = Some c -> String.get m t = Some d -> c ≠ d ->
  n + String.length t = m + String.length s ->
  a ++ s ≠ b ++ t.
Proof.
  intros Hs Ht Hcd Hpos Heq.
  assert (Hlen : String.length a + String.length s
                 = String.length b + String.length t).
  { by rewrite <- !string_length_app, Heq. }
  rewrite (String.append_correct2 a s n) in Hs.
  rewrite (String.append_correct2 b t m) in Ht.
  replace (m + String.length b) with (n + String.length a) in Ht by lia.
  rewrite Heq in Hs. rewrite Hs in Ht. by injection Ht.
Qed.

Lemma symbol_ne_useIcon (name name' : string) :
  symbol (modifierKeys name) ≠ useIcon (modifierKeys name').
Proof.
  apply (suffix_distinct name name' "-symbol" "-use-icon" 6 8 "l"%char "n"%char);
    done.
Qed.

Lemma icon_ne_useIcon (name name' : string) :
  icon (modifierKeys name) ≠ useIcon (modifierKeys name').
Proof.
  apply (suffix_distinct name name' "-icon-path" "-use-icon" 9 8 "h"%char "n"%char);
    done.
Qed.

(** [_loadCurrentState] fills [currentSymbols] with symbol and icon-path
    keys only. *)
Lemma loadCurrentState_useIcon_undefined (st : State) (name : string) :
  Js.get (currentSymbols (_loadCurrentState st))
    (useIcon (modifierKeys name)) = JUndefined.
Proof.
  unfold _loadCurrentState, Js.forEach. cbv zeta.
  rewrite !currentSymbols_debug, currentSymbols_with_savedSymbols.
  apply (forEach_from_invariant (fun s =>
    Js.get (currentSymbols s) (useIcon (modifierKeys name)) = JUndefined)).
  - reflexivity.
  - intros n j s Hs. cbv zeta.
    change (Js.get
              (Js.set (Js.set (currentSymbols s) (symbol (modifierKeys n))
                         (get_string (settings s) (symbol (modifierKeys n))))
                 (icon (modifierKeys n))
                 (get_string (settings s) (icon (modifierKeys n))))
              (useIcon (modifierKeys name)) = JUndefined).
    rewrite get_insert_ne by apply icon_ne_useIcon.
    rewrite get_insert_ne by apply symbol_ne_useIcon.
    exact Hs.
Qed.

Lemma fillPreferencesWindow_currentSymbols (gs : GSettings) :
  currentSymbols (fillPreferencesWindow gs)
  = currentSymbols
      (_loadCurrentState (debug LogInitializing (new_SettingsManager gs))).
Proof.
  unfold fillPreferencesWindow, _createPreferenceGroups, createGroup.
  cbv zeta. rewrite !currentSymbols_debug.
  match goal with
  | |- currentSymbols (_createEntryRows ?s) = _ =>
      pose proof (createEntryRows_fields s) as H; cbv zeta in H;
      destruct H as (Hc & _)
  end.
  rewrite Hc. unfold _setupButtonLogic, _createControlButtons, initialize.
  rewrite currentSymbols_updateButtonStates, currentSymbols_with_buttons.
  rewrite currentSymbols_debug. reflexivity.
Qed.

(** A freshly opened window caches no use-icon key among the symbols. *)
Lemma fresh_window_useIcon_undefined (gs : GSettings) (name : string) :
  Js.get (currentSymbols (fillPreferencesWindow gs))
    (useIcon (modifierKeys name)) = JUndefined.
Proof.
  rewrite fillPreferencesWindow_currentSymbols.
  apply loadCurrentState_useIcon_undefined.
Qed.

(** A key of the list whose cached current value is [undefined] makes the
    comparison with the saved preset fail, whatever was saved. *)
Lemma undefined_current_differs (this : SimpleManager) (st : State)
  (key : string) :
  key ∈ keys this ->
  Js.get (currentSymbols st) key = JUndefined ->
  isCurrentEqualToSaved this st = false.
Proof.
  intros Hin Hcur. unfold isCurrentEqualToSaved, currentDiffersFromSaved.
  rewrite negb_false_iff, some_true, Exists_exists.
  exists key. split; [done |].
  rewrite Hcur. apply strict_ne_true. intros H. symmetry in H.
  by apply nullish_not_undefined in H.
Qed.

(** What was promoted is what a fresh load of the store reads back. *)
Lemma fillPreferencesWindow_savedSymbols (gs : GSettings) :
  savedSymbols (fillPreferencesWindow gs) = get_saved_symbols gs.
Proof.
  unfold fillPreferencesWindow, _createPreferenceGroups, createGroup.
  cbv zeta. rewrite !savedSymbols_debug.
  match goal with
  | |- savedSymbols (_createEntryRows ?s) = _ =>
      pose proof (createEntryRows_fields s) as H; cbv zeta in H;
      destruct H as (_ & Hs & _)
  end.
  rewrite Hs. unfold _setupButtonLogic, _createControlButtons, initialize.
  rewrite savedSymbols_updateButtonStates, savedSymbols_with_buttons.
  rewrite savedSymbols_debug, savedSymbols_loadCurrentState.
  by rewrite settings_new_SettingsManager.
Qed.

Lemma saved_symbols_roundtrip (this : SimpleManager) (st : State) :
  let st' := saveCurrentAsPreset this st in
  savedSymbols (fillPreferencesWindow (settings st')) = savedSymbols st'.
Proof.
  pose proof (saveCurrentAsPreset_fields this st) as H. cbv zeta in *.
  destruct H as (_ & Hstore & _).
  rewrite fillPreferencesWindow_savedSymbols. exact Hstore.
Qed.


(** One position where the cached value and the listed default differ
    makes [isCurrentEqualToDefault] false. *)
Lemma isCurrentEqualToDefault_false_at (this : SimpleManager) (st : State)
  (i : nat) (key : string) :
  keys this !! i = Some key ->
  Js.get (currentSymbols st) key ≠ Js.index (defaultValues this) i ->
  isCurrentEqualToDefault this st = false.
Proof.
  intros Hi Hne.
  destruct (isCurrentEqualToDefault this st) eqn:H; [| done].
  unfold isCurrentEqualToDefault in H. rewrite every_lookup in H.
  specialize (H i key Hi). cbv beta in H. apply strict_eq_true in H.
  by destruct Hne.
Qed.

(** The group's manager on a window whose cache has no [shift-use-icon]. *)
Lemma group_not_default_without_useIcon (st : State) :
  Js.get (currentSymbols st) (useIcon (modifierKeys "shift")) = JUndefined ->
  isCurrentEqualToDefault group_manager st = false.
Proof.
  intros Hu.
  apply (isCurrentEqualToDefault_false_at group_manager st 2
           "shift-use-icon"); [reflexivity |].
  change "shift-use-icon" with (useIcon (modifierKeys "shift")).
  rewrite Hu. discriminate.
Qed.

(** C1: for the group's key list and default list,
    [isCurrentEqualToDefault] is false in every freshly opened window,
    whatever the store holds, and so also when every key holds the
    default its schema declares: the code compares [shift-icon-path] with
    the glyph listed second and [shift-use-icon], which the cache does not
    hold, with the glyph listed third. *)
Theorem group_never_default_when_opened (gs : GSettings) :
  isCurrentEqualToDefault group_manager (fillPreferencesWindow gs) = false /\
  Js.index (defaultValues group_manager) 1 = JString "Caps" /\
  Js.index (defaultValues group_manager) 2 = JString "⌃" /\
  keys group_manager !! 1 = Some "shift-icon-path" /\
  keys group_manager !! 2 = Some "shift-use-icon".
Proof.
  split; [| by repeat split].
  apply group_not_default_without_useIcon, fresh_window_useIcon_undefined.
Qed.

(** ** The cache over a whole session *)

(** No handler ever caches [control-use-icon] among the symbols: the
    handlers write symbol and icon-path keys, and a reset leaves the key
    alone because the default listed at its position, the ninth, is
    [undefined] too. *)
Lemma handle_keeps_useIcon_undefined (ev : Event) (st : State) :
  Js.get (currentSymbols st) (useIcon (modifierKeys "control")) = JUndefined ->
  Js.get (currentSymbols (handle group_manager ev st))
    (useIcon (modifierKeys "control")) = JUndefined.
Proof.
  intros Hst. destruct ev; simpl handle.
  - unfold entry_set_text.
    destruct (entries st !! _) as [e|] eqn:He; [| done].
    destruct (Nat.eqb (block_count e) 0); [| done].
    unfold on_entry_changed. simpl. rewrite lookup_insert_eq. simpl.
    unfold changeCallback_of.
    destruct (List.find _ MODIFIERS) as [n|]; [| done].
    unfold symbol_changeCallback. cbv zeta.
    destruct (Js.strict_ne _ _); [| done].
    unfold onEntryChanged, setString. cbv zeta.
    rewrite currentSymbols_updateButtonStates. simpl currentSymbols.
    by rewrite get_insert_ne by exact (symbol_ne_useIcon n "control").
  - unfold on_file_picked. cbv zeta.
    destruct (Js.strict_ne _ _); [| done].
    unfold onEntryChanged, setString. cbv zeta.
    rewrite currentSymbols_updateButtonStates. simpl currentSymbols.
    by rewrite get_insert_ne by exact (icon_ne_useIcon name "control").
  - done.
  - unfold on_reset_clicked. cbv zeta.
    rewrite currentSymbols_updateButtonStates, applyDefaults_unfold.
    destruct (applyDefaults_loop (changeCallback_of group_manager)
                group_manager (keys group_manager) 0
                (debug (LogApplyingDefaults (defaultValues group_manager))
                   (debug LogResetClicked st)) group_keys_NoDup)
      as [_ Hin].
    by rewrite (Hin 8 (useIcon (modifierKeys "control")) eq_refl).
  - unfold on_save_clicked. cbv zeta.
    rewrite currentSymbols_updateButtonStates.
    pose proof (saveCurrentAsPreset_fields group_manager
                  (debug LogSaveClicked st)) as H.
    cbv zeta in H. destruct H as (-> & _). done.
  - unfold on_symbol_changed. cbv zeta.
    destruct (Js.strict_ne _ _); [| done].
    unfold onEntryChanged. rewrite currentSymbols_updateButtonStates.
    match goal with
    | |- context [updateEntry ?cb ?k ?v ?s] =>
        pose proof (updateEntry_cache cb k v s) as H; cbv zeta in H;
        destruct H as (_ & -> & _)
    end.
    simpl currentSymbols.
    by rewrite get_insert_ne by exact (symbol_ne_useIcon name "control").
  - unfold on_icon_changed. cbv zeta.
    destruct (Js.strict_ne _ _); [| done].
    unfold onEntryChanged. rewrite currentSymbols_updateButtonStates.
    simpl currentSymbols.
    by rewrite get_insert_ne by exact (icon_ne_useIcon name "control").
  - unfold on_useIcon_changed. cbv zeta.
    by destruct (Js.strict_ne _ _).
  - unfold on_saved_symbols_changed. cbv zeta. by destruct (negb _).
  - done.
  - done.
  - done.
  - unfold run_idle. destruct (idle st) as [|k rest]; [done |].
    unfold unblock_signal_handler. simpl. by destruct (entries st !! k).
Qed.

Lemma reachable_useIcon_undefined (st : State) :
  Reachable st ->
  Js.get (currentSymbols st) (useIcon (modifierKeys "control")) = JUndefined.
Proof.
  induction 1 as [gs | st ev _ IH _].
  - apply fresh_window_useIcon_undefined.
  - by apply handle_keeps_useIcon_undefined.
Qed.

Lemma control_in_MODIFIERS : "control" ∈ MODIFIERS.
Proof. apply (bool_decide_unpack _). vm_compute. reflexivity. Qed.

Lemma group_not_saved_without_control_useIcon (st : State) :
  Js.get (currentSymbols st) (useIcon (modifierKeys "control")) = JUndefined ->
  isCurrentEqualToSaved group_manager st = false.
Proof.
  intros Hu.
  apply (undefined_current_differs group_manager st
           (useIcon (modifierKeys "control"))); [| exact Hu].
  apply useIcon_in_group_keys, control_in_MODIFIERS.
Qed.

(** In no state of a session does the group compare equal to the saved
    preset: the save button is visible throughout. *)
Lemma save_button_always_visible (st : State) :
  Reachable st ->
  isCurrentEqualToSaved group_manager st = false /\
  saveButton_visible st = true.
Proof.
  intros Hreach.
  assert (H : isCurrentEqualToSaved group_manager st = false).
  { by apply group_not_saved_without_control_useIcon,
      reachable_useIcon_undefined. }
  split; [exact H |].
  destruct (reachable_reflects st Hreach) as [_ ->]. by rewrite H.
Qed.

(** C3: for the group's key list, in whatever state the window is,
    [isCurrentEqualToSaved] is still false right after
    [saveCurrentAsPreset], and the save button stays visible after the
    click: the list holds use-icon keys, which read as [undefined] in the
    cache, and [undefined] is not [===] to [saved[key] ?? ''].  The saved
    dictionary itself is what a fresh load reads back. *)
Theorem group_save_leaves_unsaved (st : State) :
  Reachable st ->
  let st' := saveCurrentAsPreset group_manager st in
  isCurrentEqualToSaved group_manager st' = false /\
  saveButton_visible (on_save_clicked group_manager st) = true /\
  savedSymbols (fillPreferencesWindow (settings st')) = savedSymbols st'.
Proof.
  intros Hreach. cbv zeta.
  pose proof (reachable_useIcon_undefined st Hreach) as Hu.
  split; [| split].
  - apply group_not_saved_without_control_useIcon.
    pose proof (saveCurrentAsPreset_fields group_manager st) as Hf.
    cbv zeta in Hf. destruct Hf as (-> & _). exact Hu.
  - unfold on_save_clicked, _updateButtonStates. cbv zeta.
    change (saveButton_visible (debug ?l (with_buttons ?r ?v ?s))) with v.
    apply negb_true_iff. apply group_not_saved_without_control_useIcon.
    pose proof (saveCurrentAsPreset_fields group_manager
                  (debug LogSaveClicked st)) as Hf.
    cbv zeta in Hf. destruct Hf as (-> & _). exact Hu.
  - apply saved_symbols_roundtrip.
Qed.

Lemma group_save_leaves_unsaved_witness :
  isCurrentEqualToSaved group_manager
    (saveCurrentAsPreset group_manager sample_window) = false /\
  saveButton_visible (on_save_clicked group_manager sample_window) = true.
Proof.
  destruct (group_save_leaves_unsaved sample_window
              (Reachable_init sample_store)) as (H1 & H2 & _).
  split; [exact H1 | exact H2].
Defined.

(** C4: [saveCurrentAsPreset] over the group's key list puts the use-icon
    key of every modifier into the saved dictionary and into the
    dictionary handed to the store, with whatever the cache reads for it;
    in a freshly opened window that is [undefined]. *)
Theorem group_save_adds_useIcon_keys (st : State) (gs : GSettings) :
  Forall (fun name =>
    let key := useIcon (modifierKeys name) in
    let st' := saveCurrentAsPreset group_manager st in
    savedSymbols st' !! key = Some (Js.get (currentSymbols st) key) /\
    get_saved_symbols (settings st') !! key
      = Some (Js.get (currentSymbols st) key)) MODIFIERS /\
  Forall (fun name =>
    let key := useIcon (modifierKeys name) in
    let st' :=
      saveCurrentAsPreset group_manager (fillPreferencesWindow gs) in
    savedSymbols st' !! key = Some JUndefined /\
    get_saved_symbols (settings st') !! key = Some JUndefined) MODIFIERS.
Proof.
  assert (H : forall w : State,
    Forall (fun name =>
      let key := useIcon (modifierKeys name) in
      let st' := saveCurrentAsPreset group_manager w in
      savedSymbols st' !! key = Some (Js.get (currentSymbols w) key) /\
      get_saved_symbols (settings st') !! key
        = Some (Js.get (currentSymbols w) key)) MODIFIERS).
  { intros w. apply Forall_forall. intros name Hname. cbv zeta.
    pose proof (saveCurrentAsPreset_fields group_manager w) as H.
    cbv zeta in H. destruct H as (_ & Hstore & _ & Hin).
    pose proof (useIcon_in_group_keys name Hname) as Hk.
    unfold get_saved_symbols. by rewrite Hstore, (Hin _ Hk). }
  split; [apply H |].
  pose proof (fresh_window_useIcon_undefined gs) as Hu.
  specialize (H (fillPreferencesWindow gs)).
  revert Hu H. generalize (fillPreferencesWindow gs). intros w Hu H.
  rewrite Forall_forall in H |- *. intros name Hname. cbv zeta.
  specialize (H name Hname). cbv zeta in H.
  by rewrite (Hu name) in H.
Qed.

(** ** The code on the sample store *)

(** With a manager over [shift-symbol] alone: an edit leaves both the
    default and the saved preset, saving reaches the preset, and a reset
    reaches the default and leaves the preset. *)
Example shift_manager_session :
  let edited := handle shift_manager (UserEditsEntry "shift" "S")
                  shift_window in
  let saved := handle shift_manager SaveClicked edited in
  let reset := handle shift_manager ResetClicked saved in
  (isCurrentEqualToDefault shift_manager shift_window,
   isCurrentEqualToSaved shift_manager shift_window) = (true, true) /\
  (isCurrentEqualToDefault shift_manager edited,
   isCurrentEqualToSaved shift_manager edited) = (false, false) /\
  (isCurrentEqualToDefault shift_manager saved,
   isCurrentEqualToSaved shift_manager saved) = (false, true) /\
  Js.get (currentSymbols reset) "shift-symbol" = JString "⇧" /\
  (isCurrentEqualToDefault shift_manager reset,
   isCurrentEqualToSaved shift_manager reset) = (true, false) /\
  Js.get (savedSymbols reset) "shift-symbol" = JString "S".
Proof. vm_compute. repeat split. Qed.

(** With the group's own manager, over the store that ignores the writes
    it refuses: the window opens away from the defaults and from the
    preset, a save does not reach the preset, and a reset writes the
    second glyph into the icon path of shift. *)
Example group_manager_session :
  let saved := handle group_manager SaveClicked sample_window in
  let reset := handle group_manager ResetClicked sample_window in
  (isCurrentEqualToDefault group_manager sample_window,
   isCurrentEqualToSaved group_manager sample_window) = (false, false) /\
  isCurrentEqualToSaved group_manager saved = false /\
  saveButton_visible saved = true /\
  savedSymbols saved !! "shift-use-icon" = Some JUndefined /\
  isCurrentEqualToDefault group_manager reset = true /\
  Js.get (currentSymbols reset) "shift-icon-path" = JString "Caps" /\
  Js.get (currentSymbols reset) "shift-use-icon" = JString "⌃" /\
  Js.get (currentSymbols reset) "alt-symbol" = JUndefined.
Proof. vm_compute. repeat split. Qed.

(** * Further properties of the code *)

(** ** The keys of a modifier *)

Lemma string_app_inv_tail (a b s : string) : a ++ s = b ++ s -> a = b.
Proof.
  revert b. induction a as [|c a IH]; intros [|d b] H; simpl in H.
  - done.
  - apply (f_equal String.length) in H. simpl in H.
    rewrite ?string_length_app in H. simpl in H. lia.
  - apply (f_equal String.length) in H. simpl in H.
    rewrite ?string_length_app in H. simpl in H. lia.
  - injection H as -> H. f_equal. by apply IH.
Qed.

Lemma symbol_ne_icon (name name' : string) :
  symbol (modifierKeys name) ≠ icon (modifierKeys name').
Proof.
  apply (suffix_distinct name name' "-symbol" "-icon-path" 6 9
           "l"%char "h"%char); done.
Qed.

Lemma symbol_inj (name name' : string) :
  symbol (modifierKeys name) = symbol (modifierKeys name') -> name = name'.
Proof. apply string_app_inv_tail. Qed.

Lemma icon_inj (name name' : string) :
  icon (modifierKeys name) = icon (modifierKeys name') -> name = name'.
Proof. apply string_app_inv_tail. Qed.

Lemma useIcon_inj (name name' : string) :
  useIcon (modifierKeys name) = useIcon (modifierKeys name') -> name = name'.
Proof. apply string_app_inv_tail. Qed.

(** X1: [modifierKeys] never makes two keys collide: the symbol, icon-path
    and use-icon keys of any two names are three different strings, and
    two different names get different keys of each kind. *)
Theorem modifierKeys_no_collision (name name' : string) :
  symbol (modifierKeys name) ≠ icon (modifierKeys name') /\
  symbol (modifierKeys name) ≠ useIcon (modifierKeys name') /\
  icon (modifierKeys name) ≠ useIcon (modifierKeys name') /\
  (name ≠ name' ->
   symbol (modifierKeys name) ≠ symbol (modifierKeys name') /\
   icon (modifierKeys name) ≠ icon (modifierKeys name') /\
   useIcon (modifierKeys name) ≠ useIcon (modifierKeys name')).
Proof.
  split; [apply symbol_ne_icon |]. split; [apply symbol_ne_useIcon |].
  split; [apply icon_ne_useIcon |].
  intros Hne. repeat split; intros H; apply Hne.
  - by apply symbol_inj. - by apply icon_inj. - by apply useIcon_inj.
Qed.

Lemma modifierKeys_no_collision_witness :
  symbol (modifierKeys "shift") ≠ symbol (modifierKeys "caps") /\
  icon (modifierKeys "shift") ≠ icon (modifierKeys "caps") /\
  useIcon (modifierKeys "shift") ≠ useIcon (modifierKeys "caps").
Proof.
  destruct (modifierKeys_no_collision "shift" "caps") as (_ & _ & _ & H).
  apply H. discriminate.
Defined.

(** ** Loops *)

(** A [forEach] keeps an invariant that every turn for an element of the
    list keeps. *)
Lemma forEach_from_invariant_elem {A St : Type} (Q : St -> Prop)
  (f : A -> nat -> St -> St) (l : list A) (i : nat) (s : St) :
  Q s -> (forall a j s, a ∈ l -> Q s -> Q (f a j s)) ->
  Q (Js.forEach_from f i l s).
Proof.
  revert i s. induction l as [|a l IH]; intros i s Hs Hf; simpl; [done |].
  apply IH.
  - apply Hf; [by left | done].
  - intros b j s' Hb. apply Hf. by right.
Qed.

(** After a [forEach], what the turn of an element establishes holds for
    every element, provided the later turns keep it. *)
Lemma forEach_from_elem {A St : Type} (Q : St -> Prop)
  (P : A -> St -> Prop) (f : A -> nat -> St -> St) (l : list A) (i : nat)
  (s : St) :
  Q s ->
  (forall a j s, Q s -> Q (f a j s)) ->
  (forall a j s, Q s -> P a (f a j s)) ->
  (forall a b j s, Q s -> P a s -> P a (f b j s)) ->
  forall a, a ∈ l -> P a (Js.forEach_from f i l s).
Proof.
  intros Hs HQ Hest Hkeep. revert i s Hs.
  induction l as [|b l IH]; intros i s Hs a Ha; simpl.
  - by apply elem_of_nil in Ha.
  - apply elem_of_cons in Ha as [->|Ha].
    + assert (Hgen : forall l' j s', Q s' -> P b s' ->
                       P b (Js.forEach_from f j l' s')).
      { clear -HQ Hkeep. induction l' as [|c l' IH']; intros j s' H1 H2;
          simpl; [done |]. apply IH'; [by apply HQ | by apply Hkeep]. }
      apply Hgen; [by apply HQ | by apply Hest].
    + apply IH; [by apply HQ | done].
Qed.

Lemma get_set (obj : gmap string JsVal) (k k' : string) (v : JsVal) :
  Js.get (Js.set obj k v) k'
  = if decide (k = k') then v else Js.get obj k'.
Proof.
  destruct (decide (k = k')) as [->|Hne].
  - apply get_insert_eq.
  - by apply get_insert_ne.
Qed.

(** ** Loading the cache *)

Lemma currentUseIcon_debug (line : LogLine) (st : State) :
  currentUseIcon (debug line st) = currentUseIcon st.
Proof. reflexivity. Qed.

Lemma currentUseIcon_with_savedSymbols (x : gmap string JsVal) (st : State) :
  currentUseIcon (with_savedSymbols x st) = currentUseIcon st.
Proof. reflexivity. Qed.

Lemma settings_debug (line : LogLine) (st : State) :
  settings (debug line st) = settings st.
Proof. reflexivity. Qed.

Lemma settings_with_savedSymbols (x : gmap string JsVal) (st : State) :
  settings (with_savedSymbols x st) = settings st.
Proof. reflexivity. Qed.

(** What the loop of [_loadCurrentState] leaves in the two caches for a
    modifier of the list. *)
Lemma loadCurrentState_mirrors (st : State) (name : string) :
  name ∈ MODIFIERS ->
  let st' := _loadCurrentState st in
  Js.get (currentSymbols st') (symbol (modifierKeys name))
    = get_string (settings st) (symbol (modifierKeys name)) /\
  Js.get (currentSymbols st') (icon (modifierKeys name))
    = get_string (settings st) (icon (modifierKeys name)) /\
  Js.get (currentUseIcon st') (useIcon (modifierKeys name))
    = get_boolean (settings st) (useIcon (modifierKeys name)).
Proof.
  intros Hname. unfold _loadCurrentState, Js.forEach. cbv zeta.
  rewrite !currentSymbols_debug, !currentSymbols_with_savedSymbols,
    !currentUseIcon_debug, !currentUseIcon_with_savedSymbols.
  revert name Hname.
  apply (forEach_from_elem (fun s => settings s = settings st)
    (fun name s =>
       Js.get (currentSymbols s) (symbol (modifierKeys name))
         = get_string (settings st) (symbol (modifierKeys name)) /\
       Js.get (currentSymbols s) (icon (modifierKeys name))
         = get_string (settings st) (icon (modifierKeys name)) /\
       Js.get (currentUseIcon s) (useIcon (modifierKeys name))
         = get_boolean (settings st) (useIcon (modifierKeys name)))).
  - reflexivity.
  - intros a j s Hs. exact Hs.
  - intros a j s Hs. cbv zeta.
    cbn [currentSymbols currentUseIcon settings with_currentSymbols
         with_currentUseIcon].
    rewrite Hs, !get_set.
    rewrite (decide_False (P := icon _ = symbol _))
      by (intros H; symmetry in H; by apply symbol_ne_icon in H).
    by rewrite !decide_True by done.
  - intros a b j s Hs (H1 & H2 & H3). cbv zeta.
    cbn [currentSymbols currentUseIcon settings with_currentSymbols
         with_currentUseIcon].
    rewrite Hs, !get_set.
    repeat split.
    + rewrite (decide_False (P := icon _ = symbol _))
        by (intros H; symmetry in H; by apply symbol_ne_icon in H).
      destruct (decide (symbol (modifierKeys b) = symbol (modifierKeys a)))
        as [->|_]; done.
    + destruct (decide (icon (modifierKeys b) = icon (modifierKeys a)))
        as [->|_]; [done |].
      by rewrite (decide_False (P := symbol _ = icon _))
        by apply symbol_ne_icon.
    + destruct (decide (useIcon (modifierKeys b) = useIcon (modifierKeys a)))
        as [->|_]; done.
Qed.

(** Whatever the loop of [_loadCurrentState] caches among the symbols is
    the symbol or the icon path of a modifier of the list. *)
Lemma loadCurrentState_only_modifiers (st : State) (k : string) :
  is_Some (currentSymbols (_loadCurrentState st) !! k) ->
  exists name, name ∈ MODIFIERS /\
    (k = symbol (modifierKeys name) \/ k = icon (modifierKeys name)).
Proof.
  unfold _loadCurrentState, Js.forEach. cbv zeta.
  rewrite !currentSymbols_debug, !currentSymbols_with_savedSymbols.
  revert k.
  apply (forEach_from_invariant_elem (fun s => forall k,
    is_Some (currentSymbols s !! k) ->
    exists name, name ∈ MODIFIERS /\
      (k = symbol (modifierKeys name) \/ k = icon (modifierKeys name)))).
  - intros k [v Hv]. cbn in Hv. by rewrite lookup_empty in Hv.
  - intros a j s Ha Hs k. cbv zeta.
    cbn [currentSymbols currentUseIcon settings with_currentSymbols
         with_currentUseIcon].
    unfold Js.set. rewrite !lookup_insert.
    destruct (decide (icon (modifierKeys a) = k)) as [<-|_];
      [intros _; exists a; by auto |].
    destruct (decide (symbol (modifierKeys a) = k)) as [<-|_];
      [intros _; exists a; by auto |].
    apply Hs.
Qed.

(** X2: [_loadCurrentState] makes the caches mirror the store and nothing
    else: for every modifier of the list the cached symbol, icon path and
    use-icon flag are what the store returns for the key, the saved
    dictionary is the stored preset, and the symbol cache holds no key
    besides the symbol and icon-path keys of those modifiers.  What was
    cached before the call does not matter. *)
Theorem loadCurrentState_mirrors_store (st : State) :
  let st' := _loadCurrentState st in
  Forall (fun name =>
    Js.get (currentSymbols st') (symbol (modifierKeys name))
      = get_string (settings st) (symbol (modifierKeys name)) /\
    Js.get (currentSymbols st') (icon (modifierKeys name))
      = get_string (settings st) (icon (modifierKeys name)) /\
    Js.get (currentUseIcon st') (useIcon (modifierKeys name))
      = get_boolean (settings st) (useIcon (modifierKeys name))) MODIFIERS /\
  savedSymbols st' = get_saved_symbols (settings st) /\
  (forall k, is_Some (currentSymbols st' !! k) ->
     exists name, name ∈ MODIFIERS /\
       (k = symbol (modifierKeys name) \/ k = icon (modifierKeys name))).
Proof.
  cbv zeta. split; [| split].
  - apply Forall_forall. intros name Hname.
    by apply loadCurrentState_mirrors.
  - apply savedSymbols_loadCurrentState.
  - apply loadCurrentState_only_modifiers.
Qed.

Lemma loadCurrentState_mirrors_store_witness :
  exists name, name ∈ MODIFIERS /\
    ("shift-icon-path" = symbol (modifierKeys name) \/
     "shift-icon-path" = icon (modifierKeys name)).
Proof.
  destruct (loadCurrentState_mirrors_store
              (debug LogInitializing (new_SettingsManager sample_store)))
    as (_ & _ & H).
  apply (H "shift-icon-path"). vm_compute. eexists. reflexivity.
Defined.

(** ** Opening the window *)

Lemma entries_debug (line : LogLine) (st : State) :
  entries (debug line st) = entries st.
Proof. reflexivity. Qed.

Lemma idle_debug (line : LogLine) (st : State) :
  idle (debug line st) = idle st.
Proof. reflexivity. Qed.

Lemma entries_with_savedSymbols (x : gmap string JsVal) (st : State) :
  entries (with_savedSymbols x st) = entries st.
Proof. reflexivity. Qed.

Lemma idle_with_savedSymbols (x : gmap string JsVal) (st : State) :
  idle (with_savedSymbols x st) = idle st.
Proof. reflexivity. Qed.

Lemma settings_loadCurrentState (st : State) :
  settings (_loadCurrentState st) = settings st.
Proof.
  unfold _loadCurrentState, Js.forEach. cbv zeta.
  rewrite !settings_debug, settings_with_savedSymbols.
  apply (forEach_from_invariant (fun s => settings s = settings st));
    [reflexivity |].
  intros n j s Hs. exact Hs.
Qed.

Lemma entries_loadCurrentState (st : State) :
  entries (_loadCurrentState st) = entries st /\
  idle (_loadCurrentState st) = idle st.
Proof.
  unfold _loadCurrentState, Js.forEach. cbv zeta.
  rewrite !entries_debug, !idle_debug, entries_with_savedSymbols,
    idle_with_savedSymbols.
  apply (forEach_from_invariant (fun s =>
    entries s = entries st /\ idle s = idle st)); [done |].
  intros n j s Hs. exact Hs.
Qed.

Lemma or_else_string (s : string) :
  Js.or_else (JString s) (JString "") = JString s.
Proof. by destruct s. Qed.

(** The entry [_createEntryRows] builds for a modifier. *)
Lemma createEntryRows_adds (st : State) (name : string) :
  name ∈ MODIFIERS -> row_has_schema name st = true ->
  entries (_createEntryRows st) !! symbol (modifierKeys name)
  = Some {| text := Js.or_else
                      (Js.get (currentSymbols st) (symbol (modifierKeys name)))
                      (JString "");
            block_count := 0 |}.
Proof.
  intros Hname. unfold _createEntryRows, Js.forEach. revert name Hname.
  apply (forEach_from_elem
    (fun s => settings s = settings st /\
              currentSymbols s = currentSymbols st)
    (fun name s => row_has_schema name st = true ->
       entries s !! symbol (modifierKeys name)
       = Some {| text := Js.or_else
                           (Js.get (currentSymbols st)
                              (symbol (modifierKeys name))) (JString "");
                 block_count := 0 |})).
  - done.
  - intros a j s Hs. cbv zeta. by destruct (negb (row_has_schema a s)).
  - intros a j s [Hs Hc] Ha. cbv zeta.
    assert (Hrow : row_has_schema a s = true).
    { unfold row_has_schema, getSchemaKey in *. by rewrite Hs. }
    rewrite Hrow. cbn [negb]. unfold addEntry. cbn [entries debug with_entries].
    by rewrite lookup_insert_eq, Hc.
  - intros a b j s [Hs Hc] Hkeep Ha. specialize (Hkeep Ha). cbv zeta.
    destruct (negb (row_has_schema b s)); [exact Hkeep |].
    unfold addEntry. cbn [entries debug with_entries].
    rewrite lookup_insert.
    destruct (decide (symbol (modifierKeys b) = symbol (modifierKeys a)))
      as [Heq|_]; [| exact Hkeep].
    apply symbol_inj in Heq as ->. by rewrite Hc.
Qed.

(** [_createEntryRows] adds entries for modifiers whose keys the schema
    declares, under their symbol keys, and nothing else. *)
Lemma createEntryRows_only (st : State) (k : string) (e : Entry) :
  entries (_createEntryRows st) !! k = Some e ->
  entries st !! k = Some e \/
  exists name, name ∈ MODIFIERS /\ k = symbol (modifierKeys name) /\
    row_has_schema name st = true /\ block_count e = 0.
Proof.
  unfold _createEntryRows, Js.forEach. revert k e.
  apply (forEach_from_invariant_elem (fun s =>
    settings s = settings st /\
    forall k e, entries s !! k = Some e ->
      entries st !! k = Some e \/
      exists name, name ∈ MODIFIERS /\ k = symbol (modifierKeys name) /\
        row_has_schema name st = true /\ block_count e = 0)).
  - split; [done |]. intros k e H. by left.
  - intros a j s Ha [Hs Hinv]. cbv zeta.
    destruct (row_has_schema a s) eqn:Hrow; cbn [negb].
    + split; [done |]. intros k e. unfold addEntry.
      cbn [entries debug with_entries]. rewrite lookup_insert.
      destruct (decide (symbol (modifierKeys a) = k)) as [<-|_];
        [| apply Hinv].
      intros [= <-]. right. exists a.
      split; [done |]. split; [done |]. split; [| done].
      unfold row_has_schema, getSchemaKey in *. by rewrite <- Hs.
    + split; [done |]. exact Hinv.
Qed.

Lemma createEntryRows_idle (st : State) :
  idle (_createEntryRows st) = idle st.
Proof.
  unfold _createEntryRows, Js.forEach.
  apply (forEach_from_invariant (fun s => idle s = idle st)); [done |].
  intros a j s Hs. cbv zeta. by destruct (negb (row_has_schema a s)).
Qed.

Lemma settings_updateButtonStates (sm : SimpleManager) (st : State) :
  settings (_updateButtonStates sm st) = settings st.
Proof. reflexivity. Qed.

Lemma settings_with_buttons (r v : bool) (st : State) :
  settings (with_buttons r v st) = settings st.
Proof. reflexivity. Qed.

(** The state [createGroup] hands to [_createEntryRows] when the window
    is opened over [gs]. *)
Lemma fillPreferencesWindow_unfold (gs : GSettings) :
  fillPreferencesWindow gs
  = debug LogInitialized
      (debug LogGroupCreated
         (_createEntryRows
            (_updateButtonStates group_manager
               (with_buttons true false
                  (debug LogCreatingGroup
                     (_loadCurrentState
                        (debug LogInitializing
                           (new_SettingsManager gs)))))))).
Proof. reflexivity. Qed.

Lemma fillPreferencesWindow_settings (gs : GSettings) :
  settings (fillPreferencesWindow gs) = gs.
Proof.
  rewrite fillPreferencesWindow_unfold, !settings_debug.
  match goal with
  | |- settings (_createEntryRows ?s) = _ =>
      pose proof (createEntryRows_fields s) as H;
      cbv zeta in H; destruct H as (_ & _ & -> & _)
  end.
  rewrite settings_updateButtonStates, settings_with_buttons,
    settings_debug, settings_loadCurrentState.
  apply settings_new_SettingsManager.
Qed.

Lemma entries_updateButtonStates (sm : SimpleManager) (st : State) :
  entries (_updateButtonStates sm st) = entries st.
Proof. reflexivity. Qed.

Lemma idle_updateButtonStates (sm : SimpleManager) (st : State) :
  idle (_updateButtonStates sm st) = idle st.
Proof. reflexivity. Qed.

Lemma entries_with_buttons (r v : bool) (st : State) :
  entries (with_buttons r v st) = entries st.
Proof. reflexivity. Qed.

Lemma idle_with_buttons (r v : bool) (st : State) :
  idle (with_buttons r v st) = idle st.
Proof. reflexivity. Qed.

Lemma row_has_schema_ext (name : string) (s s' : State) :
  settings s = settings s' -> row_has_schema name s = row_has_schema name s'.
Proof. intros H. unfold row_has_schema, getSchemaKey. by rewrite H. Qed.

(** The state the rows are built from: the store and the caches are those
    of the load, and there is no widget yet. *)
Lemma before_createEntryRows (gs : GSettings) :
  let s0 := debug LogInitializing (new_SettingsManager gs) in
  let s1 := _updateButtonStates group_manager
              (with_buttons true false
                 (debug LogCreatingGroup (_loadCurrentState s0))) in
  settings s1 = gs /\
  currentSymbols s1 = currentSymbols (_loadCurrentState s0) /\
  entries s1 = ∅ /\ idle s1 = [].
Proof.
  cbv zeta. split; [| split; [| split]].
  - rewrite settings_updateButtonStates, settings_with_buttons,
      settings_debug, settings_loadCurrentState.
    reflexivity.
  - by rewrite currentSymbols_updateButtonStates,
      currentSymbols_with_buttons, currentSymbols_debug.
  - rewrite entries_updateButtonStates, entries_with_buttons, entries_debug.
    by rewrite (proj1 (entries_loadCurrentState _)).
  - rewrite idle_updateButtonStates, idle_with_buttons, idle_debug.
    by rewrite (proj2 (entries_loadCurrentState _)).
Qed.

(** X3: opening the window reads the store and never writes it; it leaves
    no idle callback waiting; every modifier whose three keys the schema
    declares gets one entry, stored under its symbol key, showing the
    stored symbol with its handler unblocked; a modifier with a missing
    schema key gets none; and no entry is stored under any other key. *)
Theorem window_opens_with_entries (gs : GSettings) :
  let st := fillPreferencesWindow gs in
  settings st = gs /\
  idle st = [] /\
  Forall (fun name =>
    entries st !! symbol (modifierKeys name)
    = if row_has_schema name st
      then Some {| text := get_string gs (symbol (modifierKeys name));
                   block_count := 0 |}
      else None) MODIFIERS /\
  (forall k, is_Some (entries st !! k) ->
     exists name, name ∈ MODIFIERS /\ k = symbol (modifierKeys name) /\
       row_has_schema name st = true).
Proof.
  cbv zeta.
  pose proof (fillPreferencesWindow_settings gs) as Hset.
  pose proof (before_createEntryRows gs) as H1. cbv zeta in H1.
  assert (Hload : forall name, name ∈ MODIFIERS ->
    Js.get (currentSymbols (_loadCurrentState
              (debug LogInitializing (new_SettingsManager gs))))
      (symbol (modifierKeys name))
    = get_string gs (symbol (modifierKeys name))).
  { intros name Hname.
    by destruct (loadCurrentState_mirrors
                   (debug LogInitializing (new_SettingsManager gs))
                   name Hname) as (-> & _). }
  revert Hset. rewrite fillPreferencesWindow_unfold.
  revert H1 Hload.
  generalize (_loadCurrentState
                (debug LogInitializing (new_SettingsManager gs))).
  intros l.
  generalize (_updateButtonStates group_manager
                (with_buttons true false (debug LogCreatingGroup l))).
  intros s1 (Hs1 & Hc1 & He1 & Hi1) Hload Hset.
  rewrite !settings_debug in Hset.
  rewrite !idle_debug, !entries_debug.
  assert (Hrow : forall name,
            row_has_schema name
              (debug LogInitialized
                 (debug LogGroupCreated (_createEntryRows s1)))
            = row_has_schema name s1).
  { intros name. apply row_has_schema_ext.
    rewrite !settings_debug. by rewrite Hset, Hs1. }
  split; [by rewrite !settings_debug |]. split.
  { by rewrite createEntryRows_idle. }
  split.
  - apply Forall_forall. intros name Hname. rewrite Hrow.
    destruct (row_has_schema name s1) eqn:Hr.
    + rewrite (createEntryRows_adds s1 name Hname Hr).
      rewrite Hc1, (Hload name Hname). unfold get_string.
      by rewrite or_else_string.
    + destruct (entries (_createEntryRows s1) !! symbol (modifierKeys name))
        as [e|] eqn:He; [| done].
      apply createEntryRows_only in He as [He | (n & _ & Hk & Hn & _)].
      * by rewrite He1, lookup_empty in He.
      * apply symbol_inj in Hk as <-. congruence.
  - intros k [e He].
    apply createEntryRows_only in He as [He | (n & Hn & Hk & Hr & _)].
    + by rewrite He1, lookup_empty in He.
    + exists n. by rewrite Hrow.
Qed.

Lemma window_opens_with_entries_witness :
  exists name, name ∈ MODIFIERS /\
    "shift-symbol" = symbol (modifierKeys name) /\
    row_has_schema name sample_window = true.
Proof.
  destruct (window_opens_with_entries sample_store) as (_ & _ & _ & H).
  apply (H "shift-symbol"). vm_compute. eexists. reflexivity.
Defined.

(** ** Blocking and unblocking over a session *)

Lemma balanced_ext (st st' : State) :
  entries st' = entries st -> idle st' = idle st ->
  handlers_balanced st -> handlers_balanced st'.
Proof.
  intros He Hi H key e. unfold pending_unblocks. rewrite He, Hi. apply H.
Qed.

Lemma updateEntry_balanced
  (changeCallback : string -> JsVal -> State -> State)
  (key : string) (value : JsVal) (st : State) :
  handlers_balanced st ->
  handlers_balanced (updateEntry changeCallback key value st).
Proof.
  intros H. destruct (entries st !! key) as [e|] eqn:He.
  - rewrite (updateEntry_bound changeCallback key value st e He).
    intros k e'. unfold pending_unblocks. cbn [entries idle].
    rewrite count_occ_app. cbn [count_occ].
    rewrite lookup_insert. destruct (decide (key = k)) as [<-|Hne].
    + intros [= <-]. cbn [block_count].
      destruct (string_dec key key); [| done].
      rewrite (H key e He). unfold pending_unblocks. lia.
    + intros Hk. destruct (string_dec key k); [done |].
      rewrite (H k e' Hk). unfold pending_unblocks. lia.
  - by rewrite (updateEntry_unbound changeCallback key value st He).
Qed.

Lemma run_idle_balanced (st : State) :
  handlers_balanced st -> handlers_balanced (run_idle st).
Proof.
  intros H. unfold run_idle. destruct (idle st) as [|k rest] eqn:Hi;
    [done |].
  unfold unblock_signal_handler. cbn [entries with_idle].
  destruct (entries st !! k) as [e|] eqn:He.
  - intros k' e'. unfold pending_unblocks. cbn [entries idle with_entries
      with_idle].
    rewrite lookup_insert. destruct (decide (k = k')) as [<-|Hne].
    + intros [= <-]. cbn [block_count]. rewrite (H k e He).
      unfold pending_unblocks. rewrite Hi. cbn [count_occ].
      by destruct (string_dec k k).
    + intros Hk. rewrite (H k' e' Hk). unfold pending_unblocks.
      rewrite Hi. cbn [count_occ]. by destruct (string_dec k k').
  - intros k' e' Hk. cbn [entries with_idle] in Hk.
    unfold pending_unblocks. cbn [idle with_idle].
    rewrite (H k' e' Hk). unfold pending_unblocks. rewrite Hi.
    cbn [count_occ]. destruct (string_dec k k') as [<-|]; [| done].
    congruence.
Qed.

(** The callback of the group writes the cache, the store and the
    buttons, never the widgets or the idle queue. *)
Lemma changeCallback_of_widgets (sm : SimpleManager) (key : string)
  (value : JsVal) (st : State) :
  entries (changeCallback_of sm key value st) = entries st /\
  idle (changeCallback_of sm key value st) = idle st.
Proof.
  unfold changeCallback_of.
  destruct (List.find _ MODIFIERS) as [n|]; [| done].
  unfold symbol_changeCallback. cbv zeta.
  by destruct (Js.strict_ne _ _).
Qed.

Lemma entry_set_text_balanced (sm : SimpleManager) (key : string)
  (value : JsVal) (st : State) :
  handlers_balanced st ->
  handlers_balanced (entry_set_text (changeCallback_of sm) key value st).
Proof.
  intros H. unfold entry_set_text.
  destruct (entries st !! key) as [e|] eqn:He; [| done].
  assert (Hb : handlers_balanced
    (with_entries
       (<[key := {| text := value; block_count := block_count e |}]>
          (entries st)) st)).
  { intros k e'. unfold pending_unblocks. cbn [entries idle with_entries].
    rewrite lookup_insert. destruct (decide (key = k)) as [<-|_].
    - intros [= <-]. cbn [block_count]. by apply H.
    - apply H. }
  destruct (Nat.eqb (block_count e) 0); [| exact Hb].
  unfold on_entry_changed. cbn [entries with_entries].
  rewrite lookup_insert_eq. cbn [text].
  match goal with
  | |- handlers_balanced (changeCallback_of ?m ?k ?v ?s) =>
      destruct (changeCallback_of_widgets m k v s) as [E I];
      apply (balanced_ext s); [exact E | exact I |]
  end.
  exact Hb.
Qed.

Lemma applyDefaults_balanced
  (changeCallback : string -> JsVal -> State -> State)
  (this : SimpleManager) (st : State) :
  handlers_balanced st ->
  handlers_balanced (applyDefaults changeCallback this st).
Proof.
  intros H. rewrite applyDefaults_unfold.
  apply (forEach_from_invariant handlers_balanced); [exact H |].
  intros key j s Hs. unfold applyDefaults_body. cbv zeta.
  destruct (Js.strict_ne _ _); [| exact Hs].
  apply (balanced_ext (updateEntry changeCallback key
                         (Js.index (defaultValues this) j) s)); [done .. |].
  by apply updateEntry_balanced.
Qed.

(** [saveCurrentAsPreset] writes the saved dictionary, the stored preset
    and the console, and nothing else. *)
Lemma saveCurrentAsPreset_frame (this : SimpleManager) (st : State) :
  let st' := saveCurrentAsPreset this st in
  currentSymbols st' = currentSymbols st /\
  currentUseIcon st' = currentUseIcon st /\
  entries st' = entries st /\ idle st' = idle st /\
  resetButton_sensitive st' = resetButton_sensitive st /\
  saveButton_visible st' = saveButton_visible st /\
  gs_schema (settings st') = gs_schema (settings st) /\
  gs_strings (settings st') = gs_strings (settings st) /\
  gs_booleans (settings st') = gs_booleans (settings st).
Proof.
  unfold saveCurrentAsPreset, Js.forEach. cbv zeta.
  unfold setSavedSymbols. cbv zeta.
  cbn [currentSymbols currentUseIcon entries idle resetButton_sensitive
       saveButton_visible settings with_settings with_savedSymbols debug
       set_saved_symbols gs_schema gs_strings gs_booleans].
  apply (forEach_from_invariant (fun s =>
    currentSymbols s = currentSymbols st /\
    currentUseIcon s = currentUseIcon st /\
    entries s = entries st /\ idle s = idle st /\
    resetButton_sensitive s = resetButton_sensitive st /\
    saveButton_visible s = saveButton_visible st /\
    gs_schema (settings s) = gs_schema (settings st) /\
    gs_strings (settings s) = gs_strings (settings st) /\
    gs_booleans (settings s) = gs_booleans (settings st))); [done |].
  intros key j s Hs. exact Hs.
Qed.

Lemma handle_balanced (sm : SimpleManager) (ev : Event) (st : State) :
  handlers_balanced st -> handlers_balanced (handle sm ev st).
Proof.
  intros H. destruct ev; cbn [handle].
  - by apply entry_set_text_balanced.
  - unfold on_file_picked. cbv zeta. by destruct (Js.strict_ne _ _).
  - exact H.
  - unfold on_reset_clicked. cbv zeta.
    apply (balanced_ext
             (applyDefaults (changeCallback_of sm) sm
                (debug LogResetClicked st))); [done .. |].
    by apply applyDefaults_balanced.
  - unfold on_save_clicked. cbv zeta.
    pose proof (saveCurrentAsPreset_frame sm (debug LogSaveClicked st)) as F.
    cbv zeta in F. destruct F as (_ & _ & E & I & _).
    apply (balanced_ext st); [| | exact H].
    + by rewrite entries_updateButtonStates, E.
    + by rewrite idle_updateButtonStates, I.
  - unfold on_symbol_changed. cbv zeta.
    destruct (Js.strict_ne _ _); [| exact H].
    match goal with
    | |- handlers_balanced (onEntryChanged ?m (updateEntry ?cb ?k ?v ?s)) =>
        apply (balanced_ext (updateEntry cb k v s)); [done .. |];
        apply updateEntry_balanced
    end.
    exact H.
  - unfold on_icon_changed. cbv zeta. by destruct (Js.strict_ne _ _).
  - unfold on_useIcon_changed. cbv zeta. by destruct (Js.strict_ne _ _).
  - unfold on_saved_symbols_changed. cbv zeta. by destruct (negb _).
  - exact H.
  - exact H.
  - exact H.
  - by apply run_idle_balanced.
Qed.

Lemma fillPreferencesWindow_balanced (gs : GSettings) :
  handlers_balanced (fillPreferencesWindow gs).
Proof.
  pose proof (before_createEntryRows gs) as H1. cbv zeta in H1.
  rewrite fillPreferencesWindow_unfold. revert H1.
  generalize (_updateButtonStates group_manager
                (with_buttons true false
                   (debug LogCreatingGroup
                      (_loadCurrentState
                         (debug LogInitializing (new_SettingsManager gs)))))).
  intros s1 (_ & _ & He1 & Hi1) key e.
  unfold pending_unblocks.
  rewrite !entries_debug, !idle_debug, createEntryRows_idle, Hi1.
  intros He. apply createEntryRows_only in He as [He | (n & _ & _ & _ & Hb)].
  - by rewrite He1, lookup_empty in He.
  - exact Hb.
Qed.

Lemma reachable_balanced (st : State) :
  Reachable st -> handlers_balanced st.
Proof.
  induction 1 as [gs | st ev _ IH _].
  - apply fillPreferencesWindow_balanced.
  - by apply handle_balanced.
Qed.

(** X4: in every state of a session, the handler of each entry is blocked
    exactly as many times as unblocking callbacks are waiting for it in
    the idle queue; so whenever the queue is empty every handler is
    unblocked. *)
Theorem blocks_match_pending_unblocks (st : State) (key : string)
  (e : Entry) :
  Reachable st -> entries st !! key = Some e ->
  block_count e = pending_unblocks key st /\
  (idle st = [] -> block_count e = 0).
Proof.
  intros Hreach He.
  pose proof (reachable_balanced st Hreach key e He) as H.
  split; [exact H |]. intros Hi. rewrite H. unfold pending_unblocks.
  by rewrite Hi.
Qed.

Lemma blocks_match_pending_unblocks_witness :
  pending_unblocks "caps-symbol"
    (handle group_manager ResetClicked sample_window) = 1.
Proof.
  assert (Hreach : Reachable (handle group_manager ResetClicked
                                sample_window)).
  { apply Reachable_step; [apply Reachable_init | reflexivity]. }
  assert (He : entries (handle group_manager ResetClicked sample_window)
                 !! "caps-symbol"
               = Some {| text := JString "⎇"; block_count := 1 |}).
  { vm_compute. reflexivity. }
  symmetry.
  exact (proj1 (blocks_match_pending_unblocks _ "caps-symbol" _ Hreach He)).
Defined.

Lemma run_idle_fields (st : State) :
  settings (run_idle st) = settings st /\
  currentSymbols (run_idle st) = currentSymbols st /\
  currentUseIcon (run_idle st) = currentUseIcon st /\
  savedSymbols (run_idle st) = savedSymbols st /\
  idle (run_idle st) = tail (idle st) /\
  (forall key e, entries st !! key = Some e ->
     exists e', entries (run_idle st) !! key = Some e' /\ text e' = text e).
Proof.
  unfold run_idle. destruct (idle st) as [|k rest] eqn:Hi.
  - rewrite Hi. repeat split; try done. intros key e He. by exists e.
  - unfold unblock_signal_handler. cbn [entries with_idle].
    destruct (entries st !! k) as [e0|] eqn:He0.
    + repeat split; try done. intros key e He.
      cbn [entries with_entries with_idle]. rewrite lookup_insert.
      destruct (decide (k = key)) as [<-|_]; [| by exists e].
      eexists. split; [done |]. cbn [text]. congruence.
    + repeat split; try done. intros key e He. by exists e.
Qed.

Lemma drain_idle_fields (n : nat) (st : State) :
  length (idle st) = n ->
  let st' := Nat.iter n run_idle st in
  idle st' = [] /\
  settings st' = settings st /\
  currentSymbols st' = currentSymbols st /\
  savedSymbols st' = savedSymbols st /\
  (Reachable st -> Reachable st') /\
  (forall key e, entries st !! key = Some e ->
     exists e', entries st' !! key = Some e' /\ text e' = text e).
Proof.
  revert st. induction n as [|n IH]; intros st Hn; cbv zeta.
  - cbn [Nat.iter]. split; [by apply length_zero_iff_nil |].
    repeat split; try done. intros key e He. by exists e.
  - rewrite Nat.iter_succ_r.
    destruct (run_idle_fields st) as (Hs & Hc & _ & Hsv & Hi & He).
    assert (Hlen : length (idle (run_idle st)) = n).
    { rewrite Hi. destruct (idle st); simpl in *; lia. }
    destruct (IH (run_idle st) Hlen) as (I1 & I2 & I3 & I4 & I5 & I6).
    split; [exact I1 |]. split; [by rewrite I2 |]. split; [by rewrite I3 |].
    split; [by rewrite I4 |]. split.
    + intros Hr. apply I5.
      exact (Reachable_step st IdleRuns Hr eq_refl).
    + intros key e Hk. destruct (He key e Hk) as (e1 & He1 & Ht1).
      destruct (I6 key e1 He1) as (e2 & He2 & Ht2).
      exists e2. split; [done | congruence].
Qed.

(** X5: signal blocking is always undone by the main loop: from any state
    of a session, once the idle callbacks that are waiting have run, the
    queue is empty and the handler of every entry is unblocked, while the
    text of each entry, the caches and the store are as they were. *)
Theorem drain_idle_unblocks_all (st : State) :
  Reachable st ->
  let st' := drain_idle st in
  idle st' = [] /\
  settings st' = settings st /\
  currentSymbols st' = currentSymbols st /\
  savedSymbols st' = savedSymbols st /\
  (forall key e, entries st !! key = Some e ->
     exists e', entries st' !! key = Some e' /\
       text e' = text e /\ block_count e' = 0).
Proof.
  intros Hreach. cbv zeta. unfold drain_idle.
  destruct (drain_idle_fields (length (idle st)) st eq_refl)
    as (Hi & Hs & Hc & Hsv & Hr & He).
  cbv zeta in *.
  split; [exact Hi |]. split; [exact Hs |]. split; [exact Hc |].
  split; [exact Hsv |].
  intros key e Hk. destruct (He key e Hk) as (e' & He' & Ht).
  exists e'. split; [exact He' |]. split; [exact Ht |].
  rewrite (reachable_balanced _ (Hr Hreach) key e' He').
  unfold pending_unblocks. by rewrite Hi.
Qed.

Lemma drain_idle_unblocks_all_witness :
  exists e', entries (drain_idle (handle group_manager ResetClicked
                                     sample_window)) !! "caps-symbol"
             = Some e' /\
    text e' = JString "⎇" /\ block_count e' = 0.
Proof.
  assert (Hreach : Reachable (handle group_manager ResetClicked
                                sample_window)).
  { apply Reachable_step; [apply Reachable_init | reflexivity]. }
  assert (He : entries (handle group_manager ResetClicked sample_window)
                 !! "caps-symbol"
               = Some {| text := JString "⎇"; block_count := 1 |}).
  { vm_compute. reflexivity. }
  destruct (drain_idle_unblocks_all _ Hreach) as (_ & _ & _ & _ & H).
  exact (H "caps-symbol" _ He).
Defined.

(** ** Store notifications, continued *)

(** X6: a store notification is never answered with a store write: the
    handlers of 'changed::<key>' for a symbol, an icon path, a use-icon
    flag and the saved preset, and the idle callback, all leave the store
    as it is; the three key handlers also leave the saved dictionary
    alone. *)
Theorem notifications_never_write_store (sm : SimpleManager)
  (name : string) (st : State) :
  settings (on_symbol_changed sm name st) = settings st /\
  settings (on_icon_changed sm name st) = settings st /\
  settings (on_useIcon_changed sm name st) = settings st /\
  settings (on_saved_symbols_changed sm st) = settings st /\
  settings (run_idle st) = settings st /\
  savedSymbols (on_symbol_changed sm name st) = savedSymbols st /\
  savedSymbols (on_icon_changed sm name st) = savedSymbols st /\
  savedSymbols (on_useIcon_changed sm name st) = savedSymbols st.
Proof.
  assert (Hsym : settings (on_symbol_changed sm name st) = settings st /\
                 savedSymbols (on_symbol_changed sm name st)
                 = savedSymbols st).
  { unfold on_symbol_changed. cbv zeta.
    destruct (Js.strict_ne _ _); [| done].
    unfold onEntryChanged.
    rewrite settings_updateButtonStates, savedSymbols_updateButtonStates.
    match goal with
    | |- context [updateEntry ?cb ?k ?v ?s] =>
        pose proof (updateEntry_cache cb k v s) as H; cbv zeta in H;
        destruct H as (-> & _ & _ & -> & _)
    end.
    done. }
  destruct Hsym as [H1 H2].
  split; [exact H1 |].
  split; [unfold on_icon_changed; cbv zeta; by destruct (Js.strict_ne _ _) |].
  split;
    [unfold on_useIcon_changed; cbv zeta; by destruct (Js.strict_ne _ _) |].
  split;
    [unfold on_saved_symbols_changed; cbv zeta; by destruct (negb _) |].
  split; [apply run_idle_fields |].
  split; [exact H2 |].
  split; [unfold on_icon_changed; cbv zeta; by destruct (Js.strict_ne _ _) |].
  unfold on_useIcon_changed. cbv zeta. by destruct (Js.strict_ne _ _).
Qed.

(** X7: after the handler of 'changed::<key>' has run, the cache agrees
    with the store on that key, for a symbol, an icon path and a use-icon
    flag alike; and when a symbol had changed, the entry bound to it shows
    the stored value, with its handler blocked once more. *)
Theorem store_notification_updates_cache (sm : SimpleManager)
  (name : string) (st : State) :
  Js.get (currentSymbols (on_symbol_changed sm name st))
    (symbol (modifierKeys name))
  = get_string (settings st) (symbol (modifierKeys name)) /\
  Js.get (currentSymbols (on_icon_changed sm name st))
    (icon (modifierKeys name))
  = get_string (settings st) (icon (modifierKeys name)) /\
  Js.get (currentUseIcon (on_useIcon_changed sm name st))
    (useIcon (modifierKeys name))
  = get_boolean (settings st) (useIcon (modifierKeys name)) /\
  (forall e,
     entries st !! symbol (modifierKeys name) = Some e ->
     Js.get (currentSymbols st) (symbol (modifierKeys name))
       ≠ get_string (settings st) (symbol (modifierKeys name)) ->
     entries (on_symbol_changed sm name st) !! symbol (modifierKeys name)
     = Some {| text := get_string (settings st) (symbol (modifierKeys name));
               block_count := S (block_count e) |}).
Proof.
  split; [| split; [| split]].
  - unfold on_symbol_changed. cbv zeta.
    destruct (Js.strict_ne _ _) eqn:Hne.
    + unfold onEntryChanged. rewrite currentSymbols_updateButtonStates.
      match goal with
      | |- context [updateEntry ?cb ?k ?v ?s] =>
          pose proof (updateEntry_cache cb k v s) as H; cbv zeta in H;
          destruct H as (_ & -> & _)
      end.
      cbn [currentSymbols with_currentSymbols]. apply get_insert_eq.
    + by apply strict_ne_false in Hne.
  - unfold on_icon_changed. cbv zeta.
    destruct (Js.strict_ne _ _) eqn:Hne.
    + unfold onEntryChanged. rewrite currentSymbols_updateButtonStates.
      cbn [currentSymbols with_currentSymbols]. apply get_insert_eq.
    + by apply strict_ne_false in Hne.
  - unfold on_useIcon_changed. cbv zeta.
    destruct (Js.strict_ne _ _) eqn:Hne.
    + unfold onEntryChanged.
      change (currentUseIcon (_updateButtonStates sm ?s))
        with (currentUseIcon s).
      cbn [currentUseIcon with_currentUseIcon]. apply get_insert_eq.
    + by apply strict_ne_false in Hne.
  - intros e He Hne. apply strict_ne_true in Hne.
    unfold on_symbol_changed. cbv zeta. rewrite Hne.
    unfold onEntryChanged. rewrite entries_updateButtonStates.
    rewrite (updateEntry_bound (changeCallback_of sm) _ _ _ e);
      [| exact He].
    cbn [entries]. by rewrite lookup_insert_eq.
Qed.

Lemma store_notification_updates_cache_witness :
  let st := handle group_manager (OutsideSetString "shift-symbol" "Sh")
              sample_window in
  entries (on_symbol_changed group_manager "shift" st) !! "shift-symbol"
  = Some {| text := JString "Sh"; block_count := 1 |}.
Proof.
  intros st.
  destruct (store_notification_updates_cache group_manager "shift" st)
    as (_ & _ & _ & H).
  apply (H {| text := JString "⇧"; block_count := 0 |}).
  - vm_compute. reflexivity.
  - vm_compute. discriminate.
Defined.

(** ** Edits made in an entry *)

Lemma find_symbol_in_MODIFIERS (name : string) :
  name ∈ MODIFIERS ->
  List.find (fun n => String.eqb (symbol (modifierKeys n))
                        (symbol (modifierKeys name))) MODIFIERS
  = Some name.
Proof.
  intros H. unfold MODIFIERS in H.
  repeat (apply elem_of_cons in H as [-> | H]; [vm_compute; reflexivity |]).
  by apply elem_of_nil in H.
Qed.

(** X8: an edit the user makes in the entry of a modifier while its
    handler is unblocked reaches the cache: afterwards the cached symbol
    is the text typed, the entry shows it and stays unblocked, and the
    saved dictionary is untouched; when the text differs from what was
    cached, it is also written to the store and both buttons are
    recomputed. *)
Theorem user_edit_writes_through (sm : SimpleManager) (name txt : string)
  (st : State) (e : Entry) :
  name ∈ MODIFIERS ->
  entries st !! symbol (modifierKeys name) = Some e ->
  block_count e = 0 ->
  let st' := handle sm (UserEditsEntry name txt) st in
  Js.get (currentSymbols st') (symbol (modifierKeys name)) = JString txt /\
  entries st' !! symbol (modifierKeys name)
    = Some {| text := JString txt; block_count := 0 |} /\
  savedSymbols st' = savedSymbols st /\
  (Js.get (currentSymbols st) (symbol (modifierKeys name)) ≠ JString txt ->
   get_string (settings st') (symbol (modifierKeys name)) = JString txt /\
   buttons_reflect_state sm st').
Proof.
  intros Hname He Hb. cbv zeta. cbn [handle].
  rewrite (entry_set_text_unblocked (changeCallback_of sm) _ _ st e He Hb).
  unfold changeCallback_of. rewrite (find_symbol_in_MODIFIERS name Hname).
  unfold symbol_changeCallback. cbv zeta.
  cbn [currentSymbols debug with_entries].
  destruct (Js.strict_ne _ _) eqn:Hne.
  - unfold onEntryChanged.
    rewrite currentSymbols_updateButtonStates, entries_updateButtonStates,
      savedSymbols_updateButtonStates, settings_updateButtonStates.
    unfold setString. cbv zeta.
    cbn [currentSymbols entries savedSymbols settings with_currentSymbols
         with_settings with_entries debug].
    split; [apply get_insert_eq |].
    split; [by rewrite lookup_insert_eq |]. split; [done |].
    intros _. split; [| apply updateButtonStates_reflects].
    unfold get_string, set_string. cbn [gs_strings].
    by rewrite lookup_insert_eq.
  - apply strict_ne_false in Hne.
    cbn [currentSymbols entries savedSymbols debug with_entries].
    split; [exact Hne |]. split; [by rewrite lookup_insert_eq |].
    split; [done |]. intros H. by destruct H.
Qed.

Lemma user_edit_writes_through_witness :
  let st' := handle group_manager (UserEditsEntry "shift" "S")
               sample_window in
  Js.get (currentSymbols st') "shift-symbol" = JString "S" /\
  get_string (settings st') "shift-symbol" = JString "S".
Proof.
  intros st'.
  assert (Hin : "shift" ∈ MODIFIERS).
  { apply (bool_decide_unpack _). vm_compute. reflexivity. }
  assert (He : entries sample_window !! symbol (modifierKeys "shift")
               = Some {| text := JString "⇧"; block_count := 0 |}).
  { vm_compute. reflexivity. }
  destruct (user_edit_writes_through group_manager "shift" "S"
              sample_window _ Hin He eq_refl) as (H1 & _ & _ & H2).
  split; [exact H1 |]. apply H2. vm_compute. discriminate.
Defined.

(** ** Reset and save, continued *)

Lemma get_string_set_string_ne (gs : GSettings) (k k' : string)
  (v : JsVal) :
  k ≠ k' -> get_string (set_string gs k v) k' = get_string gs k'.
Proof.
  intros Hne. unfold get_string, set_string. destruct v; try done.
  cbn [gs_strings]. by rewrite lookup_insert_ne.
Qed.

Lemma set_string_other_fields (gs : GSettings) (k : string) (v : JsVal) :
  gs_schema (set_string gs k v) = gs_schema gs /\
  gs_booleans (set_string gs k v) = gs_booleans gs /\
  gs_saved_symbols (set_string gs k v) = gs_saved_symbols gs.
Proof. unfold set_string. by destruct v. Qed.

Lemma updateEntry_entries_ne
  (changeCallback : string -> JsVal -> State -> State)
  (key k : string) (value : JsVal) (st : State) :
  key ≠ k ->
  entries (updateEntry changeCallback key value st) !! k = entries st !! k.
Proof.
  intros Hne. destruct (entries st !! key) as [e|] eqn:He.
  - rewrite (updateEntry_bound changeCallback key value st e He).
    cbn [entries]. by rewrite lookup_insert_ne.
  - by rewrite (updateEntry_unbound changeCallback key value st He).
Qed.

(** X10: a reset touches nothing outside its key list and never the saved
    preset: [applyDefaults] leaves the saved dictionary, the stored
    preset, the use-icon cache, the boolean keys of the store and both
    buttons as they were, and for every key that is not in the manager's
    list the cached value, the stored string and the entry are
    unchanged. *)
Theorem applyDefaults_frame
  (changeCallback : string -> JsVal -> State -> State)
  (this : SimpleManager) (st : State) :
  let st' := applyDefaults changeCallback this st in
  savedSymbols st' = savedSymbols st /\
  currentUseIcon st' = currentUseIcon st /\
  gs_saved_symbols (settings st') = gs_saved_symbols (settings st) /\
  gs_booleans (settings st') = gs_booleans (settings st) /\
  resetButton_sensitive st' = resetButton_sensitive st /\
  saveButton_visible st' = saveButton_visible st /\
  (forall k, k ∉ keys this ->
     Js.get (currentSymbols st') k = Js.get (currentSymbols st) k /\
     get_string (settings st') k = get_string (settings st) k /\
     entries st' !! k = entries st !! k).
Proof.
  cbv zeta. rewrite applyDefaults_unfold.
  apply (forEach_from_invariant_elem (fun s =>
    savedSymbols s = savedSymbols st /\
    currentUseIcon s = currentUseIcon st /\
    gs_saved_symbols (settings s) = gs_saved_symbols (settings st) /\
    gs_booleans (settings s) = gs_booleans (settings st) /\
    resetButton_sensitive s = resetButton_sensitive st /\
    saveButton_visible s = saveButton_visible st /\
    (forall k, k ∉ keys this ->
       Js.get (currentSymbols s) k = Js.get (currentSymbols st) k /\
       get_string (settings s) k = get_string (settings st) k /\
       entries s !! k = entries st !! k))).
  - repeat split; done.
  - intros a j s Ha (H1 & H2 & H3 & H4 & H5 & H6 & H7).
    unfold applyDefaults_body. cbv zeta.
    destruct (Js.strict_ne _ _); [| done].
    pose proof (updateEntry_cache changeCallback a
                  (Js.index (defaultValues this) j) s) as U.
    cbv zeta in U. destruct U as (U1 & U2 & U3 & U4 & U5 & U6).
    unfold setString. cbv zeta.
    cbn [savedSymbols currentUseIcon settings resetButton_sensitive
         saveButton_visible currentSymbols entries with_settings
         with_currentSymbols].
    rewrite U1, U2, U3, U4, U5, U6.
    destruct (set_string_other_fields (settings s) a
                (Js.index (defaultValues this) j)) as (_ & S2 & S3).
    rewrite S2, S3.
    repeat split; try done.
    + rewrite get_insert_ne by (intros ->; done). by apply H7.
    + rewrite get_string_set_string_ne by (intros ->; done). by apply H7.
    + rewrite updateEntry_entries_ne by (intros ->; done). by apply H7.
Qed.

Lemma applyDefaults_frame_witness :
  let st' := applyDefaults (changeCallback_of shift_manager) shift_manager
               edited_window in
  Js.get (currentSymbols st') "caps-symbol" = JString "Caps" /\
  get_string (settings st') "caps-symbol" = JString "Caps" /\
  entries st' !! "caps-symbol"
    = Some {| text := JString "Caps"; block_count := 0 |}.
Proof.
  intros st'.
  assert (Hout : "caps-symbol" ∉ keys shift_manager).
  { intros H. apply list_elem_of_singleton in H. discriminate. }
  destruct (applyDefaults_frame (changeCallback_of shift_manager)
              shift_manager edited_window) as (_ & _ & _ & _ & _ & _ & H).
  exact (H "caps-symbol" Hout).
Defined.




(** X12: a save writes the preset and nothing else, and saving twice is
    saving once: [saveCurrentAsPreset] leaves both caches of current
    values, the entries, the idle queue, the buttons and the string and
    boolean keys of the store as they were, and a second call right after
    the first leaves the saved dictionary and the stored preset as the
    first made them. *)
Theorem saveCurrentAsPreset_frame_idempotent (this : SimpleManager)
  (st : State) :
  let st' := saveCurrentAsPreset this st in
  let st'' := saveCurrentAsPreset this st' in
  currentSymbols st' = currentSymbols st /\
  currentUseIcon st' = currentUseIcon st /\
  entries st' = entries st /\ idle st' = idle st /\
  resetButton_sensitive st' = resetButton_sensitive st /\
  saveButton_visible st' = saveButton_visible st /\
  gs_strings (settings st') = gs_strings (settings st) /\
  gs_booleans (settings st') = gs_booleans (settings st) /\
  savedSymbols st'' = savedSymbols st' /\
  get_saved_symbols (settings st'') = get_saved_symbols (settings st').
Proof.
  cbv zeta.
  pose proof (saveCurrentAsPreset_frame this st) as F. cbv zeta in F.
  destruct F as (F1 & F2 & F3 & F4 & F5 & F6 & _ & F8 & F9).
  pose proof (saveCurrentAsPreset_fields this st) as A. cbv zeta in A.
  destruct A as (_ & A2 & A3 & A4).
  pose proof (saveCurrentAsPreset_fields this (saveCurrentAsPreset this st))
    as B. cbv zeta in B. destruct B as (_ & B2 & B3 & B4).
  assert (Hsaved : savedSymbols
                     (saveCurrentAsPreset this (saveCurrentAsPreset this st))
                   = savedSymbols (saveCurrentAsPreset this st)).
  { apply map_eq. intros k. destruct (decide (k ∈ keys this)) as [Hk|Hk].
    - by rewrite (B4 k Hk), (A4 k Hk), F1.
    - by rewrite (B3 k Hk). }
  repeat split; try done; unfold get_saved_symbols; by rewrite B2, A2.
Qed.

(** ** The saved preset seen from outside *)

Lemma symbolsEqual_same_size (m1 m2 : gmap string JsVal) :
  size m1 = size m2 ->
  (symbolsEqual m1 m2 = true <->
   forall k, is_Some (m1 !! k) ->
     Js.nullish (Js.get m1 k) (JString "")
     = Js.nullish (Js.get m2 k) (JString "")).
Proof.
  intros H. unfold symbolsEqual. rewrite !keys_length.
  apply Nat.eqb_eq in H. rewrite H. cbn [negb]. unfold Js.every.
  rewrite (every_from_Forall
             (fun key => Js.strict_eq
                (Js.nullish (Js.get m1 key) (JString ""))
                (Js.nullish (Js.get m2 key) (JString "")))).
  rewrite Forall_forall. split.
  - intros Hall k Hk. apply strict_eq_true, Hall. by apply elem_of_keys.
  - intros Hall k Hk. apply strict_eq_true, Hall. by apply elem_of_keys.
Qed.

Lemma symbolsEqual_refl (m : gmap string JsVal) : symbolsEqual m m = true.
Proof. by apply symbolsEqual_same_size. Qed.

Lemma same_dom_same_size (m1 m2 : gmap string JsVal) :
  dom m1 = dom m2 -> size m1 = size m2.
Proof. intros H. by rewrite <- !size_dom, H. Qed.

(** With the same keys on both sides, [symbolsEqual] says that all values
    agree under [??]. *)
Lemma symbolsEqual_same_dom (m1 m2 : gmap string JsVal) :
  dom m1 = dom m2 ->
  (symbolsEqual m1 m2 = true <->
   forall k, Js.nullish (Js.get m1 k) (JString "")
             = Js.nullish (Js.get m2 k) (JString "")).
Proof.
  intros Hdom.
  rewrite (symbolsEqual_same_size m1 m2 (same_dom_same_size m1 m2 Hdom)).
  split; [| by auto].
  intros H k. destruct (m1 !! k) as [v|] eqn:Hk; [by apply H; exists v |].
  assert (Hk2 : m2 !! k = None).
  { apply not_elem_of_dom. rewrite <- Hdom. by apply not_elem_of_dom. }
  unfold Js.get. by rewrite Hk, Hk2.
Qed.

(** X13: [symbolsEqual] holds of a dictionary and itself, and it is
    symmetric between dictionaries that have the same keys; between
    dictionaries with different keys it is not: it can accept a pair in
    one order and reject it in the other. *)
Theorem symbolsEqual_reflexive_not_symmetric :
  (forall m, symbolsEqual m m = true) /\
  (forall m1 m2, dom m1 = dom m2 ->
     symbolsEqual m1 m2 = symbolsEqual m2 m1) /\
  (exists m1 m2, symbolsEqual m1 m2 = true /\ symbolsEqual m2 m1 = false).
Proof.
  split; [apply symbolsEqual_refl |]. split.
  - intros m1 m2 Hdom.
    pose proof (symbolsEqual_same_dom m1 m2 Hdom) as H12.
    pose proof (symbolsEqual_same_dom m2 m1 (eq_sym Hdom)) as H21.
    destruct (symbolsEqual m1 m2), (symbolsEqual m2 m1); try done.
    + symmetry. apply H21. intros k. symmetry. by apply H12.
    + apply H12. intros k. symmetry. by apply H21.
  - exists {["caps-icon-path" := JString ""]},
           {["shift-symbol" := JString "⇧"]}.
    split; vm_compute; reflexivity.
Qed.

Lemma symbolsEqual_reflexive_not_symmetric_witness :
  symbolsEqual {["shift-symbol" := JString "S"]}
               {["shift-symbol" := JString "⇧"]}
  = symbolsEqual {["shift-symbol" := JString "⇧"]}
                 {["shift-symbol" := JString "S"]}.
Proof.
  destruct symbolsEqual_reflexive_not_symmetric as (_ & H & _).
  apply H. apply (bool_decide_unpack _). vm_compute. reflexivity.
Defined.

Lemma some_ext {A : Type} (p q : A -> bool) (l : list A) :
  (forall x, p x = q x) -> Js.some p l = Js.some q l.
Proof.
  intros H. induction l as [|a l IH]; simpl; [done |]. by rewrite H, IH.
Qed.

(** X14: what the handler of 'changed::saved-symbols' does with a new
    stored preset: if [symbolsEqual] rejects the pair it takes the stored
    preset into the cache and recomputes the buttons; otherwise it only
    logs its line and keeps the cached preset.  Keeping it is harmless
    when both dictionaries have the same keys, since every comparison
    with the current values then gives the same answer; with different
    keys it is not: the window can go on comparing with a preset the
    store no longer holds. *)
Theorem saved_notification_refreshes_or_keeps (sm : SimpleManager)
  (st : State) :
  let stored := get_saved_symbols (settings st) in
  let st' := on_saved_symbols_changed sm st in
  (symbolsEqual (savedSymbols st) stored = false ->
   savedSymbols st' = stored /\ buttons_reflect_state sm st') /\
  (symbolsEqual (savedSymbols st) stored = true ->
   st' = debug LogSavedChangedExternally st) /\
  (symbolsEqual (savedSymbols st) stored = true ->
   dom (savedSymbols st) = dom stored ->
   forall keys,
     currentDiffersFromSaved keys st'
     = currentDiffersFromSaved keys (with_savedSymbols stored st')) /\
  (isCurrentEqualToSaved shift_manager
     (on_saved_symbols_changed shift_manager stale_window) = false /\
   isCurrentEqualToSaved shift_manager
     (with_savedSymbols (get_saved_symbols (settings stale_window))
        stale_window) = true).
Proof.
  cbv zeta. split; [| split; [| split]].
  - intros H. unfold on_saved_symbols_changed. cbv zeta.
    cbn [savedSymbols settings debug]. rewrite H. cbn [negb].
    split; [done | apply updateButtonStates_reflects].
  - intros H. unfold on_saved_symbols_changed. cbv zeta.
    cbn [savedSymbols settings debug]. by rewrite H.
  - intros H Hdom keys. unfold on_saved_symbols_changed. cbv zeta.
    cbn [savedSymbols settings debug]. rewrite H. cbn [negb].
    unfold currentDiffersFromSaved.
    cbn [savedSymbols currentSymbols debug with_savedSymbols].
    apply some_ext. intros k.
    by rewrite (proj1 (symbolsEqual_same_dom _ _ Hdom) H k).
  - split; vm_compute; reflexivity.
Qed.

Lemma saved_notification_refreshes_or_keeps_witness :
  on_saved_symbols_changed shift_manager stale_window
  = debug LogSavedChangedExternally stale_window.
Proof.
  destruct (saved_notification_refreshes_or_keeps shift_manager stale_window)
    as (_ & H & _).
  apply H. vm_compute. reflexivity.
Defined.

(** X15: the notification a save causes is recognised as an echo: right
    after a click on Save, the handler of 'changed::saved-symbols' finds
    the stored preset equal to the cached one and only logs its line. *)
Theorem save_echo_is_ignored (sm : SimpleManager) (st : State) :
  on_saved_symbols_changed sm (on_save_clicked sm st)
  = debug LogSavedChangedExternally (on_save_clicked sm st).
Proof.
  unfold on_saved_symbols_changed. cbv zeta.
  rewrite settings_debug, savedSymbols_debug.
  assert (H : get_saved_symbols (settings (on_save_clicked sm st))
              = savedSymbols (on_save_clicked sm st)).
  { unfold on_save_clicked. cbv zeta.
    rewrite settings_updateButtonStates, savedSymbols_updateButtonStates.
    pose proof (saveCurrentAsPreset_fields sm (debug LogSaveClicked st)) as F.
    cbv zeta in F. by destruct F as (_ & F & _). }
  by rewrite H, symbolsEqual_refl.
Qed.

(** ** The comparison grid of the dialog *)

Lemma nullish_idem (a : JsVal) (s : string) :
  Js.nullish (Js.nullish a (JString s)) (JString s)
  = Js.nullish a (JString s).
Proof. by destruct a. Qed.

(** A key the grid shows is a key [currentDiffersFromSaved] counts. *)
Lemma grid_differs_differs (st : State) (key : string) :
  grid_differs st key = true ->
  Js.strict_ne (Js.get (currentSymbols st) key)
    (Js.nullish (Js.get (savedSymbols st) key) (JString "")) = true.
Proof.
  unfold grid_differs. rewrite !strict_ne_true. intros H Heq. apply H.
  by rewrite Heq, nullish_idem.
Qed.

Section GridFacts.

Variable get_summary : string -> string.
Variable st : State.

(** The loop of [_createComparisonGrid], for any function that behaves as
    its body does. *)
Lemma grid_loop (body : string -> nat -> GridLoop -> GridLoop)
  (keys : list string) :
  (forall key j acc,
     body key j acc
     = if grid_differs st key
       then {| loop_grid :=
                 (loop_grid acc
                  ++ grid_row get_summary st key (loop_row acc))%list;
               loop_row := S (loop_row acc);
               loop_hasChanges := true |}
       else acc) ->
  forall i g r h,
    Js.forEach_from body i keys
      {| loop_grid := g; loop_row := r; loop_hasChanges := h |}
    = {| loop_grid :=
           (g ++ grid_rows get_summary st
                   (List.filter (grid_differs st) keys) r)%list;
         loop_row := r + length (List.filter (grid_differs st) keys);
         loop_hasChanges :=
           h || negb (Nat.eqb
                        (length (List.filter (grid_differs st) keys)) 0) |}.
Proof.
  intros Hbody. induction keys as [|a l IH]; intros i g r h; simpl.
  - by rewrite app_nil_r, Nat.add_0_r, orb_false_r.
  - rewrite Hbody. destruct (grid_differs st a); cbn [loop_grid loop_row].
    + rewrite IH. cbn [grid_rows length Nat.eqb negb].
      rewrite <- app_assoc, orb_true_r. f_equal. lia.
    + apply IH.
Qed.

Lemma createComparisonGrid_eq (title : string) (keys : list string) :
  _createComparisonGrid get_summary title keys st
  = match List.filter (grid_differs st) keys with
    | [] => None
    | diff =>
        Some (grid_headers title ++ grid_rows get_summary st diff 1)%list
    end.
Proof.
  unfold _createComparisonGrid, Js.forEach. cbv zeta.
  cbn [Js.forEach_from app].
  rewrite (grid_loop _ keys).
  - cbn [loop_hasChanges loop_grid orb].
    by destruct (List.filter (grid_differs st) keys).
  - intros key j acc. unfold grid_differs.
    destruct (Js.strict_ne _ _); [| done].
    cbn [Js.forEach_from Nat.eqb]. unfold grid_row.
    by rewrite <- !app_assoc.
Qed.

End GridFacts.

(** X16: [_createComparisonGrid] returns the three header labels followed
    by one row of three labels (summary, current, saved) for each key
    whose current and saved values differ under [??], in the order of the
    key list and numbered 1, 2, ... without gaps; it returns [null]
    exactly when no key differs.  A grid is only ever returned when
    [currentDiffersFromSaved] is true, and it is always returned then if
    every cached value of the list is defined. *)
Theorem comparison_grid_rows (get_summary : string -> string)
  (title : string) (keys : list string) (st : State) :
  let grid := _createComparisonGrid get_summary title keys st in
  grid = match List.filter (grid_differs st) keys with
         | [] => None
         | diff =>
             Some (grid_headers title
                   ++ grid_rows get_summary st diff 1)%list
         end /\
  (grid = None <-> Forall (fun key => grid_differs st key = false) keys) /\
  (is_Some grid -> currentDiffersFromSaved keys st = true) /\
  (Forall (fun key =>
     Js.nullish (Js.get (currentSymbols st) key) (JString "")
     = Js.get (currentSymbols st) key) keys ->
   currentDiffersFromSaved keys st = true -> is_Some grid).
Proof.
  cbv zeta. rewrite createComparisonGrid_eq.
  split; [done |].
  assert (Hnil : List.filter (grid_differs st) keys = [] <->
                 Forall (fun key => grid_differs st key = false) keys).
  { induction keys as [|a l IH]; simpl; [by split; [constructor |] |].
    rewrite Forall_cons. destruct (grid_differs st a); [| tauto].
    split; [done | by intros []]. }
  split; [| split].
  - rewrite <- Hnil. by destruct (List.filter (grid_differs st) keys).
  - intros Hsome. unfold currentDiffersFromSaved. apply some_true.
    destruct (List.filter (grid_differs st) keys) as [|k diff] eqn:Hf;
      [by destruct Hsome |].
    assert (Hk : List.In k (List.filter (grid_differs st) keys))
      by (rewrite Hf; by left).
    apply filter_In in Hk as [Hin Hd].
    apply Exists_exists. exists k.
    split; [by apply list_elem_of_In | by apply grid_differs_differs].
  - intros Hdef Hdiff. unfold currentDiffersFromSaved in Hdiff.
    apply some_true, Exists_exists in Hdiff as (k & Hin & Hk).
    assert (Hd : grid_differs st k = true).
    { unfold grid_differs. rewrite Forall_forall in Hdef.
      by rewrite (Hdef k Hin). }
    destruct (List.filter (grid_differs st) keys) as [|k' diff] eqn:Hf;
      [| done].
    assert (Hk' : List.In k (List.filter (grid_differs st) keys)).
    { apply filter_In. split; [by apply list_elem_of_In | done]. }
    rewrite Hf in Hk'. by destruct Hk'.
Qed.

Lemma comparison_grid_rows_witness :
  is_Some (_createComparisonGrid (fun key => key) "Symbols"
             (keys shift_manager) edited_window).
Proof.
  destruct (comparison_grid_rows (fun key => key) "Symbols"
              (keys shift_manager) edited_window) as (_ & _ & _ & H).
  apply H.
  - repeat constructor.
  - vm_compute. reflexivity.
Defined.

(** ** Defaults taken from the schema *)




(** ** Reading a list of keys from the store *)

Lemma fromEntries_lookup (gs : GSettings) (l : list string)
  (acc : gmap string JsVal) (k : string) :
  fold_left (fun obj kv => Js.set obj kv.1 kv.2)
    (List.map (fun key => (key, get_string gs key)) l) acc !! k
  = if decide (k ∈ l) then Some (get_string gs k) else acc !! k.
Proof.
  revert acc. induction l as [|a l IH]; intros acc;
    cbn [List.map fold_left].
  - destruct (decide (k ∈ [])) as [H|_]; [by apply elem_of_nil in H | done].
  - rewrite IH. cbn [fst snd]. unfold Js.set.
    destruct (decide (k ∈ l)) as [Hl|Hl];
      destruct (decide (k ∈ a :: l)) as [Hal|Hal]; try done.
    + destruct Hal. by right.
    + rewrite lookup_insert. destruct (decide (a = k)) as [->|Hne]; [done |].
      apply elem_of_cons in Hal as [->|Hal]; done.
    + rewrite lookup_insert_ne; [done |]. intros ->. apply Hal. by left.
Qed.

(** X18: [_getSymbolsFromSettings(keys)] returns a dictionary whose keys
    are exactly the listed keys, each bound to the string the store holds
    for it, also when a key is listed more than once and when the list
    is empty. *)
Theorem getSymbolsFromSettings_lookup (keys : list string) (st : State)
  (k : string) :
  _getSymbolsFromSettings keys st !! k
  = (if decide (k ∈ keys) then Some (get_string (settings st) k) else None)
  /\ dom (_getSymbolsFromSettings keys st) = list_to_set keys
  /\ _getSymbolsFromSettings [] st = ∅.
Proof.
  assert (H : forall k', _getSymbolsFromSettings keys st !! k'
    = if decide (k' ∈ keys) then Some (get_string (settings st) k')
      else None).
  { intros k'. unfold _getSymbolsFromSettings, Object_fromEntries.
    rewrite fromEntries_lookup. by rewrite lookup_empty. }
  split; [apply H |]. split; [| done].
  apply set_eq. intros k'. rewrite elem_of_dom, H, elem_of_list_to_set.
  destruct (decide (k' ∈ keys)) as [Hk|Hk].
  - split; [done | by eexists].
  - split; [by intros [] | done].
Qed.

(** ** A default list shorter than the key list *)

Lemma index_beyond (l : list JsVal) (i : nat) :
  length l <= i -> Js.index l i = JUndefined.
Proof. intros H. unfold Js.index. by rewrite lookup_ge_None_2. Qed.

(** ** The use-icon switch *)

(** X20: the use-icon switch plays no part in the comparisons: after
    'state-set' the flag is cached and stored as given, while the cached
    symbols and the saved dictionary are untouched, so both
    [isCurrentEqualToDefault] and [isCurrentEqualToSaved] answer as
    before, and buttons that reflected them keep their state. *)
Theorem switch_leaves_comparisons (sm : SimpleManager) (name : string)
  (isActive : bool) (st : State) :
  let st' := on_state_set sm name isActive st in
  Js.get (currentUseIcon st') (useIcon (modifierKeys name)) = JBool isActive /\
  get_boolean (settings st') (useIcon (modifierKeys name)) = JBool isActive /\
  currentSymbols st' = currentSymbols st /\
  savedSymbols st' = savedSymbols st /\
  isCurrentEqualToDefault sm st' = isCurrentEqualToDefault sm st /\
  isCurrentEqualToSaved sm st' = isCurrentEqualToSaved sm st /\
  (buttons_reflect_state sm st ->
   resetButton_sensitive st' = resetButton_sensitive st /\
   saveButton_visible st' = saveButton_visible st).
Proof.
  cbv zeta. unfold on_state_set, onEntryChanged, setBoolean. cbv zeta.
  split; [apply get_insert_eq |]. split.
  { unfold get_boolean. cbn. by rewrite lookup_insert_eq. }
  split; [done |]. split; [done |]. split; [done |]. split; [done |].
  intros [H1 H2]. split; [by rewrite H1 | by rewrite H2].
Qed.

Lemma switch_leaves_comparisons_witness :
  let st' := on_state_set group_manager "shift" true sample_window in
  resetButton_sensitive st' = resetButton_sensitive sample_window /\
  saveButton_visible st' = saveButton_visible sample_window.
Proof.
  intros st'.
  destruct (switch_leaves_comparisons group_manager "shift" true
              sample_window) as (_ & _ & _ & _ & _ & _ & H).
  apply H. split; vm_compute; reflexivity.
Defined.

(** ** The entries over a session *)

Lemma updateEntry_keeps_keys
  (changeCallback : string -> JsVal -> State -> State)
  (key k : string) (value : JsVal) (st : State) :
  is_Some (entries (updateEntry changeCallback key value st) !! k) ->
  is_Some (entries st !! k).
Proof.
  destruct (entries st !! key) as [e|] eqn:He.
  - rewrite (updateEntry_bound changeCallback key value st e He).
    cbn [entries]. rewrite lookup_insert.
    destruct (decide (key = k)) as [<-|_]; [by rewrite He | done].
  - by rewrite (updateEntry_unbound changeCallback key value st He).
Qed.

Lemma handle_keeps_keys (sm : SimpleManager) (ev : Event) (st : State)
  (k : string) :
  is_Some (entries (handle sm ev st) !! k) -> is_Some (entries st !! k).
Proof.
  destruct ev; cbn [handle]; try done.
  - unfold entry_set_text.
    destruct (entries st !! _) as [e|] eqn:He; [| done].
    assert (Hins : is_Some
      (<[symbol (modifierKeys name) :=
           {| text := JString txt; block_count := block_count e |}]>
         (entries st) !! k) -> is_Some (entries st !! k)).
    { rewrite lookup_insert.
      destruct (decide (symbol (modifierKeys name) = k)) as [<-|_];
        [by rewrite He | done]. }
    destruct (Nat.eqb (block_count e) 0); [| exact Hins].
    unfold on_entry_changed. cbn [entries with_entries].
    rewrite lookup_insert_eq. cbn [text].
    match goal with
    | |- context [changeCallback_of ?m ?key ?v ?s] =>
        destruct (changeCallback_of_widgets m key v s) as [-> _]
    end.
    exact Hins.
  - unfold on_file_picked. cbv zeta. by destruct (Js.strict_ne _ _).
  - unfold on_reset_clicked. cbv zeta.
    rewrite entries_updateButtonStates, applyDefaults_unfold.
    apply (forEach_from_invariant (fun s =>
      is_Some (entries s !! k) -> is_Some (entries st !! k))); [done |].
    intros a j s Hs. unfold applyDefaults_body. cbv zeta.
    destruct (Js.strict_ne _ _); [| done].
    intros H. apply Hs. by apply updateEntry_keeps_keys in H.
  - unfold on_save_clicked. cbv zeta. rewrite entries_updateButtonStates.
    pose proof (saveCurrentAsPreset_frame sm (debug LogSaveClicked st)) as F.
    cbv zeta in F. by destruct F as (_ & _ & -> & _).
  - unfold on_symbol_changed. cbv zeta.
    destruct (Js.strict_ne _ _); [| done].
    unfold onEntryChanged. rewrite entries_updateButtonStates.
    apply updateEntry_keeps_keys.
  - unfold on_icon_changed. cbv zeta. by destruct (Js.strict_ne _ _).
  - unfold on_useIcon_changed. cbv zeta. by destruct (Js.strict_ne _ _).
  - unfold on_saved_symbols_changed. cbv zeta. by destruct (negb _).
  - unfold run_idle. destruct (idle st) as [|key rest]; [done |].
    unfold unblock_signal_handler. cbn [entries with_idle].
    destruct (entries st !! key) as [e|] eqn:He; [| done].
    cbn [entries with_entries]. rewrite lookup_insert.
    destruct (decide (key = k)) as [<-|_]; [by rewrite He | done].
Qed.

Lemma fillPreferencesWindow_keys (gs : GSettings) (k : string) :
  is_Some (entries (fillPreferencesWindow gs) !! k) ->
  exists name, name ∈ MODIFIERS /\ k = symbol (modifierKeys name).
Proof.
  pose proof (before_createEntryRows gs) as H1. cbv zeta in H1.
  rewrite fillPreferencesWindow_unfold. revert H1.
  generalize (_updateButtonStates group_manager
                (with_buttons true false
                   (debug LogCreatingGroup
                      (_loadCurrentState
                         (debug LogInitializing (new_SettingsManager gs)))))).
  intros s1 (_ & _ & He1 & _). rewrite !entries_debug. intros [e He].
  apply createEntryRows_only in He as [He | (n & Hn & Hk & _)].
  - by rewrite He1, lookup_empty in He.
  - by exists n.
Qed.

(** X21: over a whole session the window never binds an entry to anything
    but the symbol key of a modifier, so a push into the entry of an
    icon-path or use-icon key is always the silent no-op of
    [updateEntry]: it returns the state unchanged, whatever the value. *)
Theorem entries_only_under_symbol_keys (st : State) :
  Reachable st ->
  (forall k, is_Some (entries st !! k) ->
     exists name, name ∈ MODIFIERS /\ k = symbol (modifierKeys name)) /\
  (forall changeCallback name value,
     updateEntry changeCallback (icon (modifierKeys name)) value st = st /\
     updateEntry changeCallback (useIcon (modifierKeys name)) value st = st).
Proof.
  intros Hreach.
  assert (H : forall k, is_Some (entries st !! k) ->
            exists name, name ∈ MODIFIERS /\ k = symbol (modifierKeys name)).
  { induction Hreach as [gs | st ev _ IH _]; intros k Hk.
    - by apply (fillPreferencesWindow_keys gs).
    - apply IH. by apply handle_keeps_keys in Hk. }
  split; [exact H |].
  intros cb name value. split; apply updateEntry_unbound.
  - destruct (entries st !! icon (modifierKeys name)) as [e|] eqn:He;
      [| done].
    destruct (H _ (mk_is_Some _ _ He)) as (n & _ & Hk).
    symmetry in Hk. by apply symbol_ne_icon in Hk.
  - destruct (entries st !! useIcon (modifierKeys name)) as [e|] eqn:He;
      [| done].
    destruct (H _ (mk_is_Some _ _ He)) as (n & _ & Hk).
    symmetry in Hk. by apply symbol_ne_useIcon in Hk.
Qed.

Lemma entries_only_under_symbol_keys_witness :
  updateEntry (changeCallback_of group_manager) "shift-icon-path"
    (JString "Caps") sample_window = sample_window.
Proof.
  destruct (entries_only_under_symbol_keys sample_window
              (Reachable_init sample_store)) as [_ H].
  exact (proj1 (H (changeCallback_of group_manager) "shift"
                  (JString "Caps"))).
Defined.

(** ** Clicking the buttons *)



(** X23: with the lists [_createPreferenceGroups] builds, the group never
    compares equal to the saved preset: in every state of a session
    [isCurrentEqualToSaved] is false and the save button is visible, from
    the moment the window opens, where the reset button is sensitive
    too. *)
Theorem save_button_visible_throughout (st : State) (gs : GSettings) :
  (Reachable st ->
   isCurrentEqualToSaved group_manager st = false /\
   saveButton_visible st = true) /\
  resetButton_sensitive (fillPreferencesWindow gs) = true.
Proof.
  split.
  - intros Hreach.
    assert (H : isCurrentEqualToSaved group_manager st = false).
    { by apply group_not_saved_without_control_useIcon,
        reachable_useIcon_undefined. }
    split; [exact H |].
    destruct (reachable_reflects st Hreach) as [_ ->]. by rewrite H.
  - destruct (fillPreferencesWindow_reflects gs) as [-> _].
    apply negb_true_iff.
    apply group_not_default_without_useIcon, fresh_window_useIcon_undefined.
Qed.

Lemma save_button_visible_throughout_witness :
  saveButton_visible
    (handle group_manager SaveClicked
       (handle group_manager ResetClicked sample_window)) = true.
Proof.
  destruct (save_button_visible_throughout
              (handle group_manager SaveClicked
                 (handle group_manager ResetClicked sample_window))
              sample_store) as [H _].
  apply H.
  apply Reachable_step; [| reflexivity].
  apply Reachable_step; [| reflexivity].
  apply Reachable_init.
Defined.

(** ** Picking a file, and the echo of an edit *)

(** X24: a picked file reaches the cache: after the callback of the file
    button has run with a path, the cached icon path of the modifier is
    that path, the entries and the saved dictionary are untouched, and
    when the path differs from what was cached it is also written to the
    store and both buttons are recomputed. *)
Theorem file_pick_writes_through (sm : SimpleManager) (name path : string)
  (st : State) :
  let st' := handle sm (FilePicked name path) st in
  Js.get (currentSymbols st') (icon (modifierKeys name)) = JString path /\
  entries st' = entries st /\
  savedSymbols st' = savedSymbols st /\
  (Js.get (currentSymbols st) (icon (modifierKeys name)) ≠ JString path ->
   get_string (settings st') (icon (modifierKeys name)) = JString path /\
   buttons_reflect_state sm st').
Proof.
  cbv zeta. cbn [handle]. rewrite or_else_string.
  unfold on_file_picked. cbv zeta.
  destruct (Js.strict_ne _ _) eqn:Hne.
  - unfold onEntryChanged.
    rewrite currentSymbols_updateButtonStates, entries_updateButtonStates,
      savedSymbols_updateButtonStates, settings_updateButtonStates.
    unfold setString. cbv zeta.
    cbn [currentSymbols entries savedSymbols settings with_currentSymbols
         with_settings].
    split; [apply get_insert_eq |]. split; [done |]. split; [done |].
    intros _. split; [| apply updateButtonStates_reflects].
    unfold get_string, set_string. cbn [gs_strings].
    by rewrite lookup_insert_eq.
  - apply strict_ne_false in Hne.
    split; [exact Hne |]. split; [done |]. split; [done |].
    intros H. by destruct H.
Qed.

Lemma file_pick_writes_through_witness :
  let st' := handle group_manager (FilePicked "shift" "/tmp/shift.svg")
               sample_window in
  get_string (settings st') "shift-icon-path" = JString "/tmp/shift.svg".
Proof.
  intros st'.
  destruct (file_pick_writes_through group_manager "shift" "/tmp/shift.svg"
              sample_window) as (_ & _ & _ & H).
  apply H. vm_compute. discriminate.
Defined.

(** X25: the notification the store sends after an edit is an echo the
    window ignores: when an edit in an unblocked entry, or a picked file,
    has changed the cached value, the handler of 'changed::<key>' for
    that key then returns the state as it is. *)
Theorem edit_echo_is_ignored (sm : SimpleManager) (name : string)
  (st : State) :
  (forall txt e,
     name ∈ MODIFIERS ->
     entries st !! symbol (modifierKeys name) = Some e ->
     block_count e = 0 ->
     Js.get (currentSymbols st) (symbol (modifierKeys name)) ≠ JString txt ->
     let st' := handle sm (UserEditsEntry name txt) st in
     on_symbol_changed sm name st' = st') /\
  (forall path,
     Js.get (currentSymbols st) (icon (modifierKeys name)) ≠ JString path ->
     let st' := handle sm (FilePicked name path) st in
     on_icon_changed sm name st' = st').
Proof.
  split.
  - intros txt e Hname He Hb Hne. cbv zeta. cbn [handle].
    rewrite (entry_set_text_unblocked (changeCallback_of sm) _ _ st e He Hb).
    unfold changeCallback_of. rewrite (find_symbol_in_MODIFIERS name Hname).
    unfold symbol_changeCallback. cbv zeta.
    cbn [currentSymbols debug with_entries].
    apply strict_ne_true in Hne. rewrite Hne.
    unfold on_symbol_changed. cbv zeta.
    match goal with
    | |- (if Js.strict_ne ?a ?b then _ else ?s) = ?s =>
        replace (Js.strict_ne a b) with false; [done |]
    end.
    symmetry. apply strict_ne_false.
    unfold onEntryChanged.
    rewrite currentSymbols_updateButtonStates, settings_updateButtonStates.
    unfold setString. cbv zeta.
    cbn [currentSymbols settings with_currentSymbols with_settings].
    rewrite get_insert_eq. unfold get_string, set_string. cbn [gs_strings].
    by rewrite lookup_insert_eq.
  - intros path Hne. cbv zeta. cbn [handle]. rewrite or_else_string.
    unfold on_file_picked. cbv zeta.
    apply strict_ne_true in Hne. rewrite Hne.
    unfold on_icon_changed. cbv zeta.
    match goal with
    | |- (if Js.strict_ne ?a ?b then _ else ?s) = ?s =>
        replace (Js.strict_ne a b) with false; [done |]
    end.
    symmetry. apply strict_ne_false.
    unfold onEntryChanged.
    rewrite currentSymbols_updateButtonStates, settings_updateButtonStates.
    unfold setString. cbv zeta.
    cbn [currentSymbols settings with_currentSymbols with_settings].
    rewrite get_insert_eq. unfold get_string, set_string. cbn [gs_strings].
    by rewrite lookup_insert_eq.
Qed.

Lemma edit_echo_is_ignored_witness :
  let st' := handle group_manager (UserEditsEntry "shift" "S")
               sample_window in
  on_symbol_changed group_manager "shift" st' = st'.
Proof.
  assert (Hin : "shift" ∈ MODIFIERS).
  { apply (bool_decide_unpack _). vm_compute. reflexivity. }
  assert (He : entries sample_window !! symbol (modifierKeys "shift")
               = Some {| text := JString "⇧"; block_count := 0 |}).
  { vm_compute. reflexivity. }
  destruct (edit_echo_is_ignored group_manager "shift" sample_window)
    as [H _].
  apply (H "S" _ Hin He eq_refl). vm_compute. discriminate.
Defined.

(** * A reset over the store with its write errors *)

Lemma declared_type_useIcon (name : string) :
  name ∈ MODIFIERS -> declared_type (useIcon (modifierKeys name)) = Some TBoolean.
Proof.
  intros H. unfold MODIFIERS in H.
  repeat (apply elem_of_cons in H as [-> | H]; [vm_compute; reflexivity |]).
  by apply elem_of_nil in H.
Qed.

(** A string is refused by a key that is not declared as a string, and
    [undefined] is refused by every key. *)
Lemma set_string_strict_refuses (gs : GSettings) (key : string)
  (value : JsVal) :
  declared_type key ≠ Some TString \/ (forall s, value ≠ JString s) ->
  set_string_strict gs key value = None.
Proof.
  intros [H | H]; unfold set_string_strict.
  - destruct (declared_type key) as [[|]|]; done.
  - destruct (declared_type key) as [[|]|]; [| done ..].
    destruct value; try done. by destruct (H s).
Qed.

(** A write that is well typed is the write of [set_string]. *)
Lemma set_string_strict_accepts (gs : GSettings) (key s : string) :
  declared_type key = Some TString -> has_schema_key gs key = true ->
  set_string_strict gs key (JString s) = Some (set_string gs key (JString s)).
Proof. intros Ht Hk. unfold set_string_strict. by rewrite Ht, Hk. Qed.

Section StrictReset.

Variable changeCallback : string -> JsVal -> State -> State.
Variable this : SimpleManager.

(** A turn of the loop that returns has written its own key at most. *)
Lemma applyDefaults_body_strict_other (a key : string) (i : nat)
  (st : State) :
  a ≠ key ->
  Js.get (currentSymbols
            (outcome_state
               (applyDefaults_body_strict changeCallback this a i st))) key
  = Js.get (currentSymbols st) key.
Proof.
  intros Hne. unfold applyDefaults_body_strict. cbv zeta.
  destruct (Js.strict_ne _ _); [| done].
  pose proof (updateEntry_cache changeCallback a
                (Js.index (defaultValues this) i) st) as U.
  cbv zeta in U. destruct U as (_ & U & _).
  unfold setString_strict.
  destruct (set_string_strict _ _ _); cbn [outcome_state].
  - cbn [currentSymbols with_currentSymbols with_settings].
    by rewrite get_insert_ne, U.
  - by rewrite U.
Qed.

(** The turn of a key whose write the store refuses, when the cached
    value differs from the listed one, throws and leaves the cache. *)
Lemma applyDefaults_body_strict_refused (key : string) (i : nat)
  (st : State) :
  Js.get (currentSymbols st) key ≠ Js.index (defaultValues this) i ->
  (forall gs,
     set_string_strict gs key (Js.index (defaultValues this) i) = None) ->
  exists st',
    applyDefaults_body_strict changeCallback this key i st = Threw st' /\
    currentSymbols st' = currentSymbols st.
Proof.
  intros Hne Href. unfold applyDefaults_body_strict. cbv zeta.
  apply strict_ne_true in Hne. rewrite Hne.
  unfold setString_strict. rewrite Href.
  eexists. split; [reflexivity |].
  pose proof (updateEntry_cache changeCallback key
                (Js.index (defaultValues this) i) st) as U.
  cbv zeta in U. by destruct U as (_ & U & _).
Qed.

(** A loop that has to write a refused value for one of its keys throws,
    at that key or before, with the cached value of the key in place. *)
Lemma forEach_throwing_refused (l : list string) (i j : nat) (key : string)
  (st : State) :
  NoDup l -> l !! j = Some key ->
  Js.get (currentSymbols st) key ≠ Js.index (defaultValues this) (i + j) ->
  (forall gs,
     set_string_strict gs key (Js.index (defaultValues this) (i + j))
     = None) ->
  let o := forEach_throwing (applyDefaults_body_strict changeCallback this)
             i l st in
  threw o = true /\
  Js.get (currentSymbols (outcome_state o)) key
  = Js.get (currentSymbols st) key.
Proof.
  revert i j st. induction l as [|a l IH]; intros i j st Hnd Hj Hne Href;
    [by rewrite lookup_nil in Hj |].
  apply NoDup_cons in Hnd as [Ha Hnd]. cbn [forEach_throwing].
  destruct j as [|j]; cbn in Hj.
  - injection Hj as ->. rewrite Nat.add_0_r in Hne, Href.
    destruct (applyDefaults_body_strict_refused key i st Hne Href)
      as (st' & -> & Hc).
    cbn [threw outcome_state]. by rewrite Hc.
  - assert (Hak : a ≠ key).
    { intros ->. apply Ha. by apply list_elem_of_lookup_2 in Hj. }
    pose proof (applyDefaults_body_strict_other a key i st Hak) as Hother.
    destruct (applyDefaults_body_strict changeCallback this a i st)
      as [st1|st1]; cbn [outcome_state] in Hother.
    + replace (i + S j) with (S i + j) in Hne, Href by lia.
      rewrite <- Hother in Hne.
      destruct (IH (S i) j st1 Hnd Hj Hne Href) as [H1 H2].
      split; [exact H1 |]. by rewrite H2.
    + cbn [threw outcome_state]. by split.
Qed.

(** When every key of the list is a declared string key of the schema and
    every listed value is a string, no write is refused: the reset over
    the store with write errors returns, in the state [applyDefaults]
    computes. *)
Lemma forEach_throwing_well_typed (l : list string) (i : nat) (st : State) :
  (forall j key, l !! j = Some key ->
     declared_type key = Some TString /\
     key ∈ gs_schema (settings st) /\
     exists s, Js.index (defaultValues this) (i + j) = JString s) ->
  forEach_throwing (applyDefaults_body_strict changeCallback this) i l st
  = Returned
      (Js.forEach_from (applyDefaults_body changeCallback this) i l st).
Proof.
  revert i st. induction l as [|a l IH]; intros i st H;
    cbn [forEach_throwing Js.forEach_from]; [done |].
  destruct (H 0 a eq_refl) as (Ht & Hk & s & Hs).
  rewrite Nat.add_0_r in Hs.
  assert (Hbody : applyDefaults_body_strict changeCallback this a i st
                  = Returned (applyDefaults_body changeCallback this a i st)
                  /\ gs_schema
                       (settings (applyDefaults_body changeCallback this a i st))
                     = gs_schema (settings st)).
  { unfold applyDefaults_body_strict, applyDefaults_body. cbv zeta.
    destruct (Js.strict_ne _ _); [| done].
    pose proof (updateEntry_cache changeCallback a
                  (Js.index (defaultValues this) i) st) as U.
    cbv zeta in U. destruct U as (U & _).
    unfold setString_strict, setString. cbv zeta. rewrite U, Hs.
    rewrite (set_string_strict_accepts (settings st) a s Ht)
      by (unfold has_schema_key; by apply bool_decide_eq_true).
    split; reflexivity. }
  destruct Hbody as [-> Hschema]. apply IH.
  intros j key Hj. destruct (H (S j) key Hj) as (H1 & H2 & H3).
  split; [exact H1 |]. split; [by rewrite Hschema |].
  by replace (S i + j) with (i + S j) by lia.
Qed.

Lemma applyDefaults_strict_well_typed (st : State) :
  (forall j key, keys this !! j = Some key ->
     declared_type key = Some TString /\
     key ∈ gs_schema (settings st) /\
     exists s, Js.index (defaultValues this) j = JString s) ->
  applyDefaults_strict changeCallback this st
  = Returned (applyDefaults changeCallback this st).
Proof.
  intros H. unfold applyDefaults_strict. cbv zeta.
  rewrite applyDefaults_unfold. by apply forEach_throwing_well_typed.
Qed.

Lemma applyDefaults_strict_refused (st : State) (j : nat) (key : string) :
  NoDup (keys this) -> keys this !! j = Some key ->
  Js.get (currentSymbols st) key ≠ Js.index (defaultValues this) j ->
  (forall gs,
     set_string_strict gs key (Js.index (defaultValues this) j) = None) ->
  let o := applyDefaults_strict changeCallback this st in
  threw o = true /\
  Js.get (currentSymbols (outcome_state o)) key
    = Js.get (currentSymbols st) key /\
  isCurrentEqualToDefault this (outcome_state o) = false.
Proof.
  intros Hnd Hj Hne Href. cbv zeta. unfold applyDefaults_strict. cbv zeta.
  destruct (forEach_throwing_refused (keys this) 0 j key
              (debug (LogApplyingDefaults (defaultValues this)) st)
              Hnd Hj Hne Href) as [H1 H2].
  cbv zeta in H1, H2. rewrite currentSymbols_debug in H2.
  split; [exact H1 |]. split; [exact H2 |].
  apply (isCurrentEqualToDefault_false_at this _ j key Hj). by rewrite H2.
Qed.

End StrictReset.

(** C2: with the lists [_createPreferenceGroups] builds, a reset does not
    bring the cache to the defaults.  Over the store with its write
    errors, [applyDefaults] in a freshly opened window, whatever the
    store holds, is left by the error of writing the third glyph into the
    boolean key [shift-use-icon], and [isCurrentEqualToDefault] is false
    afterwards.  At the store where every key holds its schema default,
    it has by then written the second glyph, 'Caps', into
    [shift-icon-path], in the cache and in the store, where the default
    is the empty string; and were the refused writes ignored instead, the
    reset would run to its end with [shift-icon-path] at 'Caps' all the
    same. *)
Theorem group_reset_misses_defaults (gs : GSettings) :
  let cb := changeCallback_of group_manager in
  let o := applyDefaults_strict cb group_manager (fillPreferencesWindow gs) in
  let o' := applyDefaults_strict cb group_manager sample_window in
  (threw o = true /\
   isCurrentEqualToDefault group_manager (outcome_state o) = false) /\
  (threw o' = true /\
   get_string (settings sample_window) "shift-icon-path" = JString "" /\
   Js.get (currentSymbols (outcome_state o')) "shift-icon-path"
     = JString "Caps" /\
   get_string (settings (outcome_state o')) "shift-icon-path"
     = JString "Caps") /\
  Js.get (currentSymbols (applyDefaults cb group_manager sample_window))
    "shift-icon-path" = JString "Caps".
Proof.
  cbv zeta. split; [| split; [| vm_compute; reflexivity]].
  - pose proof (fresh_window_useIcon_undefined gs "shift") as Hu.
    revert Hu. generalize (fillPreferencesWindow gs). intros w Hu.
    destruct (applyDefaults_strict_refused (changeCallback_of group_manager)
                group_manager w 2 "shift-use-icon" group_keys_NoDup eq_refl)
      as (H1 & _ & H3).
    + change "shift-use-icon" with (useIcon (modifierKeys "shift")).
      rewrite Hu. discriminate.
    + intros gs'. apply set_string_strict_refuses. left.
      change "shift-use-icon" with (useIcon (modifierKeys "shift")).
      rewrite declared_type_useIcon; [discriminate |].
      apply (bool_decide_unpack _). vm_compute. reflexivity.
    + by split.
  - repeat split; vm_compute; reflexivity.
Qed.

(** X19: a key listed at a position the default list does not reach is
    compared with [undefined], and a reset cannot settle it: if its
    cached value is defined, [isCurrentEqualToDefault] is false whatever
    the other keys hold; and [applyDefaults] over keys without
    duplicates, which asks the store to write [undefined] for it, is left
    by the write error with the cached value of the key in place, so the
    comparison is still false afterwards. *)
Theorem default_list_too_short
  (changeCallback : string -> JsVal -> State -> State)
  (this : SimpleManager) (st : State) (i : nat) (key : string) :
  keys this !! i = Some key ->
  length (defaultValues this) <= i ->
  Js.get (currentSymbols st) key ≠ JUndefined ->
  isCurrentEqualToDefault this st = false /\
  (NoDup (keys this) ->
   let o := applyDefaults_strict changeCallback this st in
   threw o = true /\
   Js.get (currentSymbols (outcome_state o)) key
     = Js.get (currentSymbols st) key /\
   isCurrentEqualToDefault this (outcome_state o) = false).
Proof.
  intros Hi Hlen Hdef. pose proof (index_beyond _ _ Hlen) as Hu. split.
  - apply (isCurrentEqualToDefault_false_at this st i key Hi).
    by rewrite Hu.
  - intros Hnd.
    apply (applyDefaults_strict_refused changeCallback this st i key Hnd Hi).
    + by rewrite Hu.
    + intros gs. apply set_string_strict_refuses. right.
      rewrite Hu. discriminate.
Qed.

Lemma default_list_too_short_witness :
  let o := applyDefaults_strict (changeCallback_of short_manager)
             short_manager sample_window in
  isCurrentEqualToDefault short_manager sample_window = false /\
  threw o = true /\
  Js.get (currentSymbols (outcome_state o)) "caps-symbol" = JString "Caps" /\
  isCurrentEqualToDefault short_manager (outcome_state o) = false.
Proof.
  intros o.
  assert (Hi : keys short_manager !! 1 = Some "caps-symbol") by reflexivity.
  assert (Hlen : length (defaultValues short_manager) <= 1).
  { vm_compute. lia. }
  assert (Hdef : Js.get (currentSymbols sample_window) "caps-symbol"
                 ≠ JUndefined).
  { vm_compute. discriminate. }
  destruct (default_list_too_short (changeCallback_of short_manager)
              short_manager sample_window 1 "caps-symbol" Hi Hlen Hdef)
    as [H1 H2].
  split; [exact H1 |].
  assert (Hnd : NoDup (keys short_manager)).
  { apply (bool_decide_unpack _). vm_compute. reflexivity. }
  destruct (H2 Hnd) as (H3 & H4 & H5).
  split; [exact H3 |]. split; [| exact H5].
  etransitivity; [exact H4 |]. vm_compute. reflexivity.
Defined.
